(** * Call-recording analyzer: the parameter scoring engine

    Shallow embedding of the two route handlers of the repository,
    [src/app/api/analyze-call/route.ts] (the Hindi-language variant, module
    [Hindi]) and its English-language sibling (module [English]), and the
    properties of the per-parameter scorers and of the two synthesizers. *)

From Stdlib Require Import Bool List String Ascii ZArith QArith Lia.
From Stdlib Require Import DecimalString Permutation.
Import ListNotations.

Local Open Scope string_scope.
Local Open Scope Z_scope.

(** ** JavaScript values the handlers work with *)

(** A JS [number] as the handlers see it.  Scores are integers and are kept
    in [Z].  The numbers of the provider's response (timestamps, sentiment
    scores, confidences) are doubles and are only ever compared; a finite
    double is modelled by its exact rational value, and so is every constant it
    is compared with.  [NaN] also stands for a missing field ([undefined]):
    the relational operators send both to [false], and [!== 0] sends both to
    [true]. *)
Inductive number : Type :=
  | NaN
  | NegInfinity
  | Finite (q : Q)
  | PosInfinity.

(** The doubles the literals [0.3] and [0.1] denote; neither decimal is a
    double, [0.3] rounds down and [0.1] rounds up. *)
Definition double_0_3 : Q := 5404319552844595 # 18014398509481984.
Definition double_0_1 : Q := 3602879701896397 # 36028797018963968.

(** [x <= c], [x < c], [x > c] for a finite constant [c]. *)
Definition num_le (x : number) (c : Q) : bool :=
  match x with
  | NaN => false
  | NegInfinity => true
  | Finite q => Qle_bool q c
  | PosInfinity => false
  end.

Definition num_lt (x : number) (c : Q) : bool :=
  match x with
  | NaN => false
  | NegInfinity => true
  | Finite q => negb (Qle_bool c q)
  | PosInfinity => false
  end.

Definition num_gt (x : number) (c : Q) : bool :=
  match x with
  | NaN => false
  | NegInfinity => false
  | Finite q => negb (Qle_bool q c)
  | PosInfinity => true
  end.

(** [x !== 0]. *)
Definition num_nonzero (x : number) : bool :=
  match x with
  | Finite q => negb (Qeq_bool q 0)
  | _ => true
  end.

(** Two numbers that are the same value. *)
Definition same_number (x y : number) : Prop :=
  match x, y with
  | NaN, NaN => True
  | NegInfinity, NegInfinity => True
  | Finite p, Finite q => Qeq p q
  | PosInfinity, PosInfinity => True
  | _, _ => False
  end.

(** The sign of [b - a], as [Array.prototype.sort] reads a comparator's
    result: a [NaN] difference counts as [0]. *)
Definition sub_sign (b a : number) : comparison :=
  match b, a with
  | NaN, _ | _, NaN => Eq
  | PosInfinity, PosInfinity | NegInfinity, NegInfinity => Eq
  | PosInfinity, _ | _, NegInfinity => Gt
  | NegInfinity, _ | _, PosInfinity => Lt
  | Finite p, Finite q => Qcompare p q
  end.

(** Strings are kept as their UTF-8 bytes.  On well-formed text a byte-level
    substring test is the code-unit-level test of [String.prototype.includes],
    UTF-8 being self-synchronising. *)
Fixpoint includes (s k : string) : bool :=
  String.prefix k s ||
  match s with
  | EmptyString => false
  | String _ s' => includes s' k
  end.

(** [keywords.some(keyword => text.includes(keyword))]. *)
Definition some_keyword (keywords : list string) (text : string) : bool :=
  existsb (fun keyword => includes text keyword) keywords.

(** [parts.join(sep)]. *)
Fixpoint join (sep : string) (parts : list string) : string :=
  match parts with
  | [] => ""
  | [p] => p
  | p :: rest => p ++ sep ++ join sep rest
  end.

(** [a || b] on strings: the empty string is falsy. *)
Definition or_else (a b : string) : string :=
  match a with
  | EmptyString => b
  | _ => a
  end.

(** [xs[i]]: [undefined] outside the array, also for a negative index. *)
Definition item {A : Type} (xs : list A) (i : Z) : option A :=
  if i <? 0 then None else nth_error xs (Z.to_nat i).

(** Lower-casing restricted to the ASCII letters; it is what
    [String.prototype.toLowerCase] does on ASCII and Devanagari text, and is
    used to run the scorers on concrete transcripts. *)
Definition lower_ascii (c : ascii) : ascii :=
  let n := nat_of_ascii c in
  if ((65 <=? n) && (n <=? 90))%nat then ascii_of_nat (n + 32) else c.

Fixpoint asciiLowerCase (s : string) : string :=
  match s with
  | EmptyString => EmptyString
  | String c s' => String (lower_ascii c) (asciiLowerCase s')
  end.

(** Reading a property of [undefined] raises a [TypeError]; a computation
    either returns a value or raises. *)
Inductive outcome (A : Type) : Type :=
  | Returns (a : A)
  | Raises.
Arguments Returns {A} a.
Arguments Raises {A}.

Definition bind {A B : Type} (m : outcome A) (k : A -> outcome B) : outcome B :=
  match m with
  | Returns a => k a
  | Raises => Raises
  end.

Notation "x <- m ;; k" := (bind m (fun x => k))
  (at level 61, m at next level, right associativity).

(** [o.field] for an [o] that may be [undefined]. *)
Definition deref {A : Type} (o : option A) : outcome A :=
  match o with
  | Some a => Returns a
  | None => Raises
  end.

(** The [scores] object: its keys in insertion order. *)
Definition Scores : Type := list (string * Z).

Fixpoint get (scores : Scores) (key : string) : option Z :=
  match scores with
  | [] => None
  | (k, v) :: rest => if String.eqb k key then Some v else get rest key
  end.

(** [xs.forEach((x, index) => ...)] threading the variables the callback
    assigns. *)
Fixpoint forEach {A S : Type} (f : S -> A -> Z -> S) (xs : list A) (index : Z)
    (st : S) : S :=
  match xs with
  | [] => st
  | x :: rest => forEach f rest (index + 1) (f st x index)
  end.

(** [xs.sort(cmp)] for a consistent comparator: the sort is stable. *)
Fixpoint sort_insert {A : Type} (cmp : A -> A -> comparison) (x : A)
    (sorted : list A) : list A :=
  match sorted with
  | [] => [x]
  | y :: rest =>
      match cmp x y with
      | Gt => y :: sort_insert cmp x rest
      | _ => x :: sorted
      end
  end.

Definition sort {A : Type} (cmp : A -> A -> comparison) (xs : list A) : list A :=
  fold_right (sort_insert cmp) [] xs.

(** [xs.push(x)]. *)
Definition push (xs : list string) (x : string) : list string :=
  (xs ++ [x])%list.

(** [set.add(x)] on a [Set] read back in insertion order. *)
Definition set_add (x : string) (set : list string) : list string :=
  if existsb (String.eqb x) set then set else push set x.

(** [n.toFixed(1)] for [n = (total / 100) * 100], [total] being the integer
    sum of the scores (between [0] and [100] for the scores the handler
    computes): the double differs from [total] by rounding noise far below
    [0.05], so one decimal prints as [total] followed by [.0]. *)
Definition toFixed1 (total : Z) : string :=
  NilZero.string_of_int (Z.to_int total) ++ ".0".

(** ** The parameter registry *)

Inductive InputType : Type := PASS_FAIL | SCORE.

(** The [Parameter] interface. *)
Record ParameterEntry : Type := {
  key : string;
  name : string;
  weight : Z;
  desc : string;
  inputType : InputType
}.

Definition sum_weights (ps : list ParameterEntry) : Z :=
  fold_right (fun p acc => weight p + acc) 0 ps.

(** A score on a property that may be missing: [undefined >= c] and
    [undefined === 0] are [false]. *)
Definition score_ge (s : option Z) (c : Z) : bool :=
  match s with
  | Some v => c <=? v
  | None => false
  end.

Definition score_is_zero (s : option Z) : bool :=
  match s with
  | Some v => v =? 0
  | None => false
  end.

(** ** The Hindi-language handler, [src/app/api/analyze-call/route.ts] *)

Module Hindi.

Record Utterance : Type := {
  transcript : string;
  start : number;
  end_ : number;
  utterance_sentiment : string;
  utterance_sentiment_score : number
}.

Record Sentiment : Type := {
  sentiment : string;
  sentiment_score : number
}.

Record Topic : Type := {
  topic : string;
  confidence_score : number
}.

Record Intent : Type := {
  intent : string;
  confidence : number
}.

Definition parameters : list ParameterEntry := [
  {| key := "greeting"; name := "Greeting"; weight := 5;
     desc := "Call opening within 5 seconds"; inputType := PASS_FAIL |};
  {| key := "collectionUrgency"; name := "Collection Urgency"; weight := 15;
     desc := "Create urgency, cross-questioning"; inputType := SCORE |};
  {| key := "rebuttalCustomerHandling"; name := "Rebuttal Handling"; weight := 15;
     desc := "Address penalties, objections"; inputType := SCORE |};
  {| key := "callEtiquette"; name := "Call Etiquette"; weight := 15;
     desc := "Tone, empathy, clear speech"; inputType := SCORE |};
  {| key := "callDisclaimer"; name := "Call Disclaimer"; weight := 5;
     desc := "Take permission before ending"; inputType := PASS_FAIL |};
  {| key := "correctDisposition"; name := "Correct Disposition"; weight := 10;
     desc := "Use correct category with remark"; inputType := PASS_FAIL |};
  {| key := "callClosing"; name := "Call Closing"; weight := 5;
     desc := "Thank the customer properly"; inputType := PASS_FAIL |};
  {| key := "fatalIdentification"; name := "Identification"; weight := 5;
     desc := "Missing agent/customer info"; inputType := PASS_FAIL |};
  {| key := "fatalTapeDiscloser"; name := "Tape Disclosure"; weight := 10;
     desc := "Inform customer about recording"; inputType := PASS_FAIL |};
  {| key := "fatalToneLanguage"; name := "Tone & Language"; weight := 15;
     desc := "No abusive or threatening speech"; inputType := PASS_FAIL |}
].

(** The keyword arrays.  The handler declares each inside the function that
    uses it; [objectionKeywords], [rebuttalKeywords], [disclosureKeywords],
    [idKeywords] and [closingKeywords] are declared a second time, with the
    same elements, inside [generateObservation]. *)
Definition greetingKeywords : list string :=
  ["नमस्ते"; "हैलो"; "गुड मॉर्निंग"; "गुड आफ्टरनून"; "गुड इवनिंग"; "स्वागत है"].

Definition urgencyKeywords : list string :=
  ["जरूरी"; "तुरंत"; "असप"; "क्रिटिकल"; "महत्वपूर्ण"; "डेडलाइन"; "ड्यू डेट";
   "पेमेंट ड्यू"; "लेट पेमेंट"; "ओवरड्यू"].

Definition objectionKeywords : list string :=
  ["नहीं कर सकते"; "नहीं होगा"; "नहीं"; "संभव नहीं"; "बहुत महंगा"; "अफोर्ड नहीं";
   "मुश्किल"; "समस्या"; "चिंता"; "परेशान"].

Definition rebuttalKeywords : list string :=
  ["समझते हैं"; "लेकिन"; "परंतु"; "वैकल्पिक"; "समाधान"; "मदद"; "सहायता"; "सपोर्ट";
   "ऑफर"; "विकल्प"; "सुझाव"].

Definition disclaimerKeywords : list string :=
  ["रिकॉर्डिंग"; "रिकॉर्ड"; "टेप"; "मॉनिटरिंग"; "कॉल रिकॉर्ड हो रहा है";
   "क्वालिटी के लिए"; "ट्रेनिंग के लिए"].

Definition dispositionKeywords : list string :=
  ["श्रेणी"; "प्रकार"; "कारण"; "उद्देश्य"; "डिस्पोजिशन"; "वर्गीकरण"; "समाधान"].

Definition closingKeywords : list string :=
  ["धन्यवाद"; "शुक्रिया"; "आभार"; "अलविदा"; "बाय"; "शुभ दिन"; "ख्याल रखना";
   "अच्छा दिन"].

Definition idKeywords : list string :=
  ["नाम"; "आईडी"; "अकाउंट"; "ग्राहक"; "रेफरेंस"; "अकाउंट नंबर"; "ग्राहक आईडी";
   "पहचान"].

Definition disclosureKeywords : list string :=
  ["रिकॉर्डिंग"; "रिकॉर्ड"; "टेप"; "मॉनिटरिंग"; "कॉल रिकॉर्ड हो रहा है";
   "क्वालिटी के लिए"; "ट्रेनिंग के लिए"].

Definition negativeKeywords : list string :=
  ["गाली"; "धमकी"; "गुस्सा"; "अभद्र"; "बेवकूफ"; "बेकार"; "बुरा"; "भयानक";
   "सबसे खराब"].

(** The variables [analyzeRebuttal]'s loop assigns. *)
Record RebuttalCounters : Type := {
  objectionCount : Z;
  rebuttalCount : Z;
  lastObjectionIndex : Z
}.

(** The variables [generateObservation]'s first loop assigns. *)
Record ObjectionFlags : Type := {
  hasObjections : bool;
  hasRebuttals : bool;
  objectionTopics : list string
}.

Section Scorers.

(** [String.prototype.toLowerCase], a builtin of the runtime.  The scorers
    only ever search the lower-cased text, and what is proved about them holds
    whatever the builtin computes. *)
Variable toLowerCase : string -> string.

Definition analyzeGreeting (utterances : list Utterance) : outcome Z :=
  if (Z.of_nat (List.length utterances) =? 0) then Returns 0 else
  firstUtterance <- deref (item utterances 0) ;;
  let hasGreeting :=
    some_keyword greetingKeywords (toLowerCase (transcript firstUtterance)) in
  Returns (if hasGreeting && num_le (start firstUtterance) 3 then 5 else 0).

Definition analyzeUrgency (utterances : list Utterance) : Z :=
  let urgencyScore :=
    fold_left (fun score utterance =>
      let text := toLowerCase (transcript utterance) in
      let hasUrgency := some_keyword urgencyKeywords text in
      let hasQuestioning :=
        includes text "?" &&
        (includes text "कब" || includes text "क्यों" || includes text "कैसे") in
      let hasTimeReference :=
        includes text "आज" || includes text "कल" || includes text "इस हफ्ते" ||
        includes text "इस महीने" in
      score + (if hasUrgency then 2 else 0) + (if hasQuestioning then 1 else 0)
            + (if hasTimeReference then 1 else 0))
      utterances 0 in
  Z.min 15 (Z.max 0 (urgencyScore - 2)).

Definition rebuttal_step (st : RebuttalCounters) (utterance : Utterance)
    (index : Z) : RebuttalCounters :=
  let text := toLowerCase (transcript utterance) in
  let hasObjection := some_keyword objectionKeywords text in
  let hasRebuttal := some_keyword rebuttalKeywords text in
  let st1 :=
    if hasObjection
    then {| objectionCount := objectionCount st + 1;
            rebuttalCount := rebuttalCount st;
            lastObjectionIndex := index |}
    else st in
  if hasRebuttal && (index >? lastObjectionIndex st1)
  then {| objectionCount := objectionCount st1;
          rebuttalCount := rebuttalCount st1 + 1;
          lastObjectionIndex := lastObjectionIndex st1 |}
  else st1.

Definition rebuttal_counters (utterances : list Utterance) : RebuttalCounters :=
  forEach rebuttal_step utterances 0
    {| objectionCount := 0; rebuttalCount := 0; lastObjectionIndex := -1 |}.

Definition analyzeRebuttal (utterances : list Utterance) : Z :=
  let st := rebuttal_counters utterances in
  let score := Z.min 15 (objectionCount st * 2 + rebuttalCount st * 3) in
  if objectionCount st >? 0
  then Z.min 15 (Z.max 0 (score - (objectionCount st - rebuttalCount st) * 2))
  else 0.

Definition analyzeEtiquette (sentiment : Sentiment) : Z :=
  let baseScore := 8 in
  let sentimentScore :=
    if num_gt (sentiment_score sentiment) double_0_3 then 7
    else if num_gt (sentiment_score sentiment) 0 then 3
    else if num_gt (sentiment_score sentiment) (- double_0_3) then -3
    else -7 in
  Z.max 0 (Z.min 15 (baseScore + sentimentScore)).

Definition analyzeDisclaimer (utterances : list Utterance) : Z :=
  let earlyDisclaimer :=
    existsb (fun utterance =>
      num_le (start utterance) 30 &&
      some_keyword disclaimerKeywords (toLowerCase (transcript utterance)))
      utterances in
  if earlyDisclaimer then 5 else 0.

Definition analyzeDisposition (utterances : list Utterance)
    (intents : list Intent) : Z :=
  let hasDisposition :=
    existsb (fun utterance =>
      let text := toLowerCase (transcript utterance) in
      some_keyword dispositionKeywords text) utterances
    || existsb (fun i =>
         includes (toLowerCase (intent i)) "disposition" ||
         includes (toLowerCase (intent i)) "category") intents in
  let hasSpecificDisposition :=
    existsb (fun utterance =>
      let text := toLowerCase (transcript utterance) in
      some_keyword dispositionKeywords text &&
      (includes text "क्योंकि" || includes text "कारण" || includes text "वजह"))
      utterances in
  if hasSpecificDisposition then 10 else if hasDisposition then 5 else 0.

Definition analyzeClosing (utterances : list Utterance) : outcome Z :=
  if (Z.of_nat (List.length utterances) =? 0) then Returns 0 else
  lastUtterance <- deref (item utterances (Z.of_nat (List.length utterances) - 1)) ;;
  let hasClosing :=
    some_keyword closingKeywords (toLowerCase (transcript lastUtterance)) in
  let hasPoliteClosing :=
    hasClosing &&
    (includes (toLowerCase (transcript lastUtterance)) "धन्यवाद" ||
     includes (toLowerCase (transcript lastUtterance)) "शुक्रिया") in
  Returns (if hasPoliteClosing then 5 else 0).

Definition analyzeIdentification (utterances : list Utterance) : Z :=
  let earlyIdentification :=
    existsb (fun utterance =>
      num_le (start utterance) 60 &&
      some_keyword idKeywords (toLowerCase (transcript utterance)))
      utterances in
  if earlyIdentification then 5 else 0.

Definition analyzeTapeDisclosure (utterances : list Utterance) : Z :=
  let earlyDisclosure :=
    existsb (fun utterance =>
      num_le (start utterance) 30 &&
      some_keyword disclosureKeywords (toLowerCase (transcript utterance)))
      utterances in
  if earlyDisclosure then 10 else 0.

Definition analyzeToneLanguage (sentiment : Sentiment)
    (utterances : list Utterance) : Z :=
  let hasNegativeLanguage :=
    existsb (fun utterance =>
      let text := toLowerCase (transcript utterance) in
      some_keyword negativeKeywords text) utterances in
  if hasNegativeLanguage || num_lt (sentiment_score sentiment) (- double_0_3) then 0
  else if num_lt (sentiment_score sentiment) (- double_0_1) then 5
  else if num_lt (sentiment_score sentiment) double_0_1 then 10
  else 15.

Definition generateOverallFeedback (scores : Scores) (sentiment : Sentiment)
    : string :=
  let feedbackParts : list string := [] in
  let feedbackParts :=
    if score_ge (get scores "collectionUrgency") 12
    then push feedbackParts "The agent was effective in creating urgency"
    else feedbackParts in
  let feedbackParts :=
    if score_ge (get scores "rebuttalCustomerHandling") 12
    then push feedbackParts "handled objections professionally"
    else feedbackParts in
  let feedbackParts :=
    if score_ge (get scores "callEtiquette") 12
    then push feedbackParts "maintained excellent call etiquette"
    else feedbackParts in
  let feedbackParts :=
    if score_is_zero (get scores "callDisclaimer")
    then push feedbackParts "failed to provide disclaimer"
    else feedbackParts in
  let feedbackParts :=
    if score_is_zero (get scores "fatalTapeDiscloser")
    then push feedbackParts "missed tape disclosure"
    else feedbackParts in
  let feedbackParts :=
    if score_is_zero (get scores "fatalIdentification")
    then push feedbackParts "failed to verify customer identity"
    else feedbackParts in
  let feedbackParts :=
    if num_gt (sentiment_score sentiment) double_0_3
    then push feedbackParts "maintained a positive tone throughout"
    else if num_lt (sentiment_score sentiment) (- double_0_3)
    then push feedbackParts "struggled with maintaining a positive tone"
    else feedbackParts in
  let feedback := "The agent " in
  if (Z.of_nat (List.length feedbackParts) >? 0)
  then feedback ++ join ", " feedbackParts
  else feedback ++ "performed adequately but has room for improvement".

Definition observation_step (st : ObjectionFlags) (utterance : Utterance)
    (index : Z) : ObjectionFlags :=
  let text := toLowerCase (transcript utterance) in
  let st1 :=
    if some_keyword objectionKeywords text then
      let topics0 := objectionTopics st in
      let topics1 :=
        if includes text "पेनल्टी" || includes text "जुर्माना"
        then set_add "penalty" topics0 else topics0 in
      let topics2 :=
        if includes text "पेमेंट" || includes text "भुगतान"
        then set_add "payment" topics1 else topics1 in
      let topics3 :=
        if includes text "समय" || includes text "टाइम"
        then set_add "time" topics2 else topics2 in
      {| hasObjections := true; hasRebuttals := hasRebuttals st;
         objectionTopics := topics3 |}
    else st in
  if some_keyword rebuttalKeywords text
  then {| hasObjections := hasObjections st1; hasRebuttals := true;
          objectionTopics := objectionTopics st1 |}
  else st1.

Definition objection_clause (utterances : list Utterance) : list string :=
  let st :=
    forEach observation_step utterances 0
      {| hasObjections := false; hasRebuttals := false; objectionTopics := [] |} in
  if hasObjections st then
    let topicList := objectionTopics st in
    if (Z.of_nat (List.length topicList) >? 0) then
      if hasRebuttals st
      then ["Customer raised objections about " ++ join " and " topicList
            ++ ". Agent managed well"]
      else ["Customer raised objections about " ++ join " and " topicList
            ++ ". Agent could have handled better"]
    else
      if hasRebuttals st
      then ["Customer raised objections which were handled professionally"]
      else ["Customer raised objections that could have been handled better"]
  else [].

Definition topic_clause (topics : list Topic) (sentiment : Sentiment)
    : list string :=
  if (Z.of_nat (List.length topics) >? 0) then
    let mainTopics :=
      map topic
        (firstn 2
           (sort (fun a b => sub_sign (confidence_score b) (confidence_score a))
              topics)) in
    if (Z.of_nat (List.length mainTopics) >? 0) then
      let topicContext := join " and " mainTopics in
      if num_gt (sentiment_score sentiment) double_0_3
      then ["Positive discussion about " ++ topicContext]
      else if num_lt (sentiment_score sentiment) (- double_0_3)
      then ["Difficult conversation regarding " ++ topicContext]
      else ["Discussed " ++ topicContext]
    else []
  else [].

Definition generateObservation (utterances : list Utterance)
    (topics : list Topic) (sentiment : Sentiment) : string :=
  let observations := objection_clause utterances in
  let hasDisclosure :=
    existsb (fun utterance =>
      some_keyword disclosureKeywords (toLowerCase (transcript utterance)))
      utterances in
  let observations :=
    if negb hasDisclosure
    then push observations "Agent missed tape disclosure" else observations in
  let hasIdentification :=
    existsb (fun utterance =>
      some_keyword idKeywords (toLowerCase (transcript utterance)))
      utterances in
  let observations :=
    if negb hasIdentification
    then push observations "Customer identification was not properly verified"
    else observations in
  let observations := (observations ++ topic_clause topics sentiment)%list in
  let lastUtterance := item utterances (Z.of_nat (List.length utterances) - 1) in
  let hasProperClosing :=
    match lastUtterance with
    | None => false
    | Some lastUtterance =>
        some_keyword closingKeywords (toLowerCase (transcript lastUtterance))
    end in
  let observations :=
    if negb hasProperClosing
    then push observations "Call ended without proper closing"
    else observations in
  or_else (join ". " observations) "No specific observations available.".

(** The analysis step of [POST]: the [scores] object literal, its fields
    evaluated in the order they are written. *)
Definition POST_scores (utterances : list Utterance) (sentiment : Sentiment)
    (intents : list Intent) : outcome Scores :=
  greeting <- analyzeGreeting utterances ;;
  let collectionUrgency := analyzeUrgency utterances in
  let rebuttalCustomerHandling := analyzeRebuttal utterances in
  let callEtiquette := analyzeEtiquette sentiment in
  let callDisclaimer := analyzeDisclaimer utterances in
  let correctDisposition := analyzeDisposition utterances intents in
  callClosing <- analyzeClosing utterances ;;
  let fatalIdentification := analyzeIdentification utterances in
  let fatalTapeDiscloser := analyzeTapeDisclosure utterances in
  let fatalToneLanguage := analyzeToneLanguage sentiment utterances in
  Returns [
    ("greeting", greeting);
    ("collectionUrgency", collectionUrgency);
    ("rebuttalCustomerHandling", rebuttalCustomerHandling);
    ("callEtiquette", callEtiquette);
    ("callDisclaimer", callDisclaimer);
    ("correctDisposition", correctDisposition);
    ("callClosing", callClosing);
    ("fatalIdentification", fatalIdentification);
    ("fatalTapeDiscloser", fatalTapeDiscloser);
    ("fatalToneLanguage", fatalToneLanguage)
  ].

(** What [POST] computes from the parsed provider response once the
    transcript is known to be non-empty: scores, then the two texts. *)
Definition POST_analysis (utterances : list Utterance) (sentiment : Sentiment)
    (topics : list Topic) (intents : list Intent)
    : outcome (Scores * string * string) :=
  scores <- POST_scores utterances sentiment intents ;;
  let overallFeedback := generateOverallFeedback scores sentiment in
  let observation := generateObservation utterances topics sentiment in
  Returns (scores, overallFeedback, observation).

End Scorers.

End Hindi.

(** ** The English-language handler *)

Module English.

Record Utterance : Type := {
  transcript : string;
  start : number;
  end_ : number
}.

(** [POST] falls back to [{}] when the provider sends no sentiment; [overall]
    is then [undefined], which is [NaN] here. *)
Record Sentiment : Type := {
  overall : number
}.

Record Topic : Type := {
  topic : string;
  confidence : number
}.

Record Intent : Type := {
  intent : string;
  intent_confidence : number
}.

Definition parameters : list ParameterEntry := [
  {| key := "greeting"; name := "Greeting"; weight := 5;
     desc := "Call opening within 5 seconds"; inputType := PASS_FAIL |};
  {| key := "collectionUrgency"; name := "Collection Urgency"; weight := 15;
     desc := "Create urgency, cross-questioning"; inputType := SCORE |};
  {| key := "rebuttalCustomerHandling"; name := "Rebuttal Handling"; weight := 15;
     desc := "Address penalties, objections"; inputType := SCORE |};
  {| key := "callEtiquette"; name := "Call Etiquette"; weight := 15;
     desc := "Tone, empathy, clear speech"; inputType := SCORE |};
  {| key := "callDisclaimer"; name := "Call Disclaimer"; weight := 5;
     desc := "Take permission before ending"; inputType := PASS_FAIL |};
  {| key := "correctDisposition"; name := "Correct Disposition"; weight := 10;
     desc := "Use correct category with remark"; inputType := PASS_FAIL |};
  {| key := "callClosing"; name := "Call Closing"; weight := 5;
     desc := "Thank the customer properly"; inputType := PASS_FAIL |};
  {| key := "fatalIdentification"; name := "Identification"; weight := 5;
     desc := "Missing agent/customer info"; inputType := PASS_FAIL |};
  {| key := "fatalTapeDiscloser"; name := "Tape Disclosure"; weight := 10;
     desc := "Inform customer about recording"; inputType := PASS_FAIL |};
  {| key := "fatalToneLanguage"; name := "Tone & Language"; weight := 15;
     desc := "No abusive or threatening speech"; inputType := PASS_FAIL |}
].

Definition urgencyKeywords : list string :=
  ["urgent"; "immediately"; "asap"; "critical"; "important"].

Definition objectionKeywords : list string :=
  ["can't"; "won't"; "don't"; "not possible"; "too expensive"].

Definition disclaimerKeywords : list string :=
  ["recording"; "recorded"; "tape"; "monitoring"].

Definition closingKeywords : list string :=
  ["thank"; "thanks"; "appreciate"; "goodbye"; "bye"].

Definition idKeywords : list string :=
  ["name"; "id"; "account"; "customer"].

Definition disclosureKeywords : list string :=
  ["recording"; "recorded"; "tape"; "monitoring"].

Definition negativeKeywords : list string :=
  ["abuse"; "threat"; "angry"; "rude"].

Section Scorers.

(** [String.prototype.toLowerCase], a builtin of the runtime.  The scorers
    only ever search the lower-cased text, and what is proved about them holds
    whatever the builtin computes. *)
Variable toLowerCase : string -> string.

Definition analyzeGreeting (utterances : list Utterance) : outcome Z :=
  if (Z.of_nat (List.length utterances) =? 0) then Returns 0 else
  firstUtterance <- deref (item utterances 0) ;;
  let greetingTime := start firstUtterance in
  Returns (if num_le greetingTime 5 then 5 else 0).

Definition analyzeUrgency (utterances : list Utterance) : Z :=
  let urgencyScore :=
    fold_left (fun score utterance =>
      let text := toLowerCase (transcript utterance) in
      let hasUrgency := some_keyword urgencyKeywords text in
      score + (if hasUrgency then 3 else 0)) utterances 0 in
  Z.min 15 urgencyScore.

Definition analyzeRebuttal (utterances : list Utterance) : Z :=
  let rebuttalScore :=
    fold_left (fun score utterance =>
      let text := toLowerCase (transcript utterance) in
      let hasObjection := some_keyword objectionKeywords text in
      score + (if hasObjection then 3 else 0)) utterances 0 in
  Z.min 15 rebuttalScore.

Definition analyzeEtiquette (sentiment : Sentiment) : Z :=
  let baseScore := 10 in
  let sentimentScore := if num_gt (overall sentiment) 0 then 4 else 0 in
  Z.min 15 (baseScore + sentimentScore).

Definition analyzeDisclaimer (utterances : list Utterance) : Z :=
  let hasDisclaimer :=
    existsb (fun utterance =>
      some_keyword disclaimerKeywords (toLowerCase (transcript utterance)))
      utterances in
  if hasDisclaimer then 5 else 0.

Definition analyzeDisposition (utterances : list Utterance)
    (intents : list Intent) : Z :=
  let hasDisposition :=
    existsb (fun i =>
      String.eqb (intent i) "disposition" || String.eqb (intent i) "category")
      intents in
  if hasDisposition then 10 else 0.

Definition analyzeClosing (utterances : list Utterance) : outcome Z :=
  if (Z.of_nat (List.length utterances) =? 0) then Returns 0 else
  lastUtterance <- deref (item utterances (Z.of_nat (List.length utterances) - 1)) ;;
  let hasClosing :=
    some_keyword closingKeywords (toLowerCase (transcript lastUtterance)) in
  Returns (if hasClosing then 5 else 0).

Definition analyzeIdentification (utterances : list Utterance) : Z :=
  let hasIdentification :=
    existsb (fun utterance =>
      some_keyword idKeywords (toLowerCase (transcript utterance)))
      utterances in
  if hasIdentification then 5 else 0.

Definition analyzeTapeDisclosure (utterances : list Utterance) : Z :=
  let hasDisclosure :=
    existsb (fun utterance =>
      some_keyword disclosureKeywords (toLowerCase (transcript utterance)))
      utterances in
  if hasDisclosure then 10 else 0.

Definition analyzeToneLanguage (sentiment : Sentiment)
    (utterances : list Utterance) : Z :=
  let hasNegativeLanguage :=
    existsb (fun utterance =>
      some_keyword negativeKeywords (toLowerCase (transcript utterance)))
      utterances in
  if hasNegativeLanguage then 0 else 15.

Definition generateOverallFeedback (scores : Scores) (sentiment : Sentiment)
    (summary : string) : string :=
  let totalScore := fold_left (fun a b => a + b) (map snd scores) 0 in
  let feedback := "Overall score: " ++ toFixed1 totalScore ++ "%. " in
  let feedback :=
    feedback ++ or_else summary "The call was processed successfully." in
  if num_lt (overall sentiment) 0
  then feedback ++ " There were some negative sentiments detected."
  else feedback.

Definition generateObservation (utterances : list Utterance)
    (topics : list Topic) (sentiment : Sentiment) : string :=
  let observations : list string := [] in
  let observations :=
    if (Z.of_nat (List.length topics) >? 0)
    then push observations
           ("Main topics discussed: " ++ join ", " (map topic topics))
    else observations in
  let observations :=
    if num_nonzero (overall sentiment)
    then push observations
           ("Overall sentiment was " ++
            (if num_gt (overall sentiment) 0 then "positive" else "negative"))
    else observations in
  or_else (join ". " observations) "No specific observations available.".

(** The analysis step of [POST]: the [scores] object literal, its fields
    evaluated in the order they are written. *)
Definition POST_scores (utterances : list Utterance) (sentiment : Sentiment)
    (intents : list Intent) : outcome Scores :=
  greeting <- analyzeGreeting utterances ;;
  let collectionUrgency := analyzeUrgency utterances in
  let rebuttalCustomerHandling := analyzeRebuttal utterances in
  let callEtiquette := analyzeEtiquette sentiment in
  let callDisclaimer := analyzeDisclaimer utterances in
  let correctDisposition := analyzeDisposition utterances intents in
  callClosing <- analyzeClosing utterances ;;
  let fatalIdentification := analyzeIdentification utterances in
  let fatalTapeDiscloser := analyzeTapeDisclosure utterances in
  let fatalToneLanguage := analyzeToneLanguage sentiment utterances in
  Returns [
    ("greeting", greeting);
    ("collectionUrgency", collectionUrgency);
    ("rebuttalCustomerHandling", rebuttalCustomerHandling);
    ("callEtiquette", callEtiquette);
    ("callDisclaimer", callDisclaimer);
    ("correctDisposition", correctDisposition);
    ("callClosing", callClosing);
    ("fatalIdentification", fatalIdentification);
    ("fatalTapeDiscloser", fatalTapeDiscloser);
    ("fatalToneLanguage", fatalToneLanguage)
  ].

Definition POST_analysis (utterances : list Utterance) (sentiment : Sentiment)
    (topics : list Topic) (summary : string) (intents : list Intent)
    : outcome (Scores * string * string) :=
  scores <- POST_scores utterances sentiment intents ;;
  let overallFeedback := generateOverallFeedback scores sentiment summary in
  let observation := generateObservation utterances topics sentiment in
  Returns (scores, overallFeedback, observation).

End Scorers.

End English.

(** ** Statements the properties are phrased with *)

(** The last element of an array, [None] for the empty one. *)
Fixpoint lastOf {A : Type} (xs : list A) : option A :=
  match xs with
  | [] => None
  | [x] => Some x
  | _ :: rest => lastOf rest
  end.

(** [scores[k]] lies in [[0, weight]] for the registry entry [p]. *)
Definition within_weight (scores : Scores) (p : ParameterEntry) : bool :=
  match get scores (key p) with
  | Some v => (0 <=? v) && (v <=? weight p)
  | None => false
  end.

(** A [PASS_FAIL] entry is awarded [0] or its weight; a [SCORE] entry is not
    constrained. *)
Definition pass_fail_respected (scores : Scores) (p : ParameterEntry) : bool :=
  match inputType p with
  | SCORE => true
  | PASS_FAIL =>
      match get scores (key p) with
      | Some v => (v =? 0) || (v =? weight p)
      | None => false
      end
  end.

(** The score object has the key and its value is one of [values]. *)
Definition awarded (scores : Scores) (k : string) (values : list Z) : Prop :=
  exists v, get scores k = Some v /\ In v values.

(** The value a handler's analysis step gives a key, if it returns. *)
Definition score_of (result : outcome Scores) (k : string) : option Z :=
  match result with
  | Returns scores => get scores k
  | Raises => None
  end.

(** The greeting rule in the specification's words: a time window, and a
    lexicon that is consulted only when the profile asks for lexical
    confirmation.  [first] is the text and start time of utterance 0. *)
Record GreetingProfile : Type := {
  greetingSeconds : Q;
  lexicalConfirmation : bool;
  greetingLexicon : list string
}.

Definition greeting_rule (profile : GreetingProfile)
    (toLowerCase : string -> string) (first : option (string * number)) : Z :=
  match first with
  | None => 0
  | Some (text, startSeconds) =>
      if num_le startSeconds (greetingSeconds profile) &&
         implb (lexicalConfirmation profile)
           (some_keyword (greetingLexicon profile) (toLowerCase text))
      then 5 else 0
  end.

(** The closing rule in the specification's words: full weight iff the last
    utterance contains one of the [terms]. *)
Definition closing_rule (terms : list string) (toLowerCase : string -> string)
    (last : option string) : Z :=
  match last with
  | None => 0
  | Some text => if some_keyword terms (toLowerCase text) then 5 else 0
  end.

Definition hindi_greeting_profile : GreetingProfile :=
  {| greetingSeconds := 3; lexicalConfirmation := true;
     greetingLexicon := Hindi.greetingKeywords |}.

Definition english_greeting_profile : GreetingProfile :=
  {| greetingSeconds := 5; lexicalConfirmation := false;
     greetingLexicon := [] |}.

Definition hindi_gratitude_terms : list string := ["धन्यवाद"; "शुक्रिया"].

(** Utterances for concrete runs. *)
Definition hi (text : string) (startSeconds : Q) : Hindi.Utterance :=
  {| Hindi.transcript := text; Hindi.start := Finite startSeconds;
     Hindi.end_ := Finite (startSeconds + 1);
     Hindi.utterance_sentiment := "neutral";
     Hindi.utterance_sentiment_score := Finite 0 |}.

Definition en (text : string) (startSeconds : Q) : English.Utterance :=
  {| English.transcript := text; English.start := Finite startSeconds;
     English.end_ := Finite (startSeconds + 1) |}.

Definition hindi_sentiment (score : Q) : Hindi.Sentiment :=
  {| Hindi.sentiment := "neutral"; Hindi.sentiment_score := Finite score |}.

Definition english_sentiment (score : Q) : English.Sentiment :=
  {| English.overall := Finite score |}.

(** The utterance has an objection-lexicon hit; it has a rebuttal-lexicon hit
    and no objection-lexicon hit. *)
Definition has_objection (toLowerCase : string -> string)
    (u : Hindi.Utterance) : bool :=
  some_keyword Hindi.objectionKeywords (toLowerCase (Hindi.transcript u)).

Definition rebuttal_without_objection (toLowerCase : string -> string)
    (u : Hindi.Utterance) : bool :=
  some_keyword Hindi.rebuttalKeywords (toLowerCase (Hindi.transcript u)) &&
  negb (has_objection toLowerCase u).

(** No clause of the Hindi [generateObservation] fires on the utterances: no
    objection, a disclosure term and an identification term somewhere, and a
    closing term in the last utterance. *)
Definition hindi_no_utterance_clause (toLowerCase : string -> string)
    (us : list Hindi.Utterance) : bool :=
  negb (existsb (has_objection toLowerCase) us) &&
  existsb (fun u =>
    some_keyword Hindi.disclosureKeywords (toLowerCase (Hindi.transcript u))) us &&
  existsb (fun u =>
    some_keyword Hindi.idKeywords (toLowerCase (Hindi.transcript u))) us &&
  match lastOf us with
  | Some u => some_keyword Hindi.closingKeywords (toLowerCase (Hindi.transcript u))
  | None => false
  end.

(** A text that starts with a character other than [N]; every clause the
    observation synthesizers emit is one, the fallback text is not. *)
Definition clause_text (text : string) : Prop :=
  match text with
  | String c _ => c <> "N"%char
  | EmptyString => False
  end.

Definition fallback_observation : string :=
  "No specific observations available.".

(** ** The handlers' [POST] *)

(** The uploaded file; its bytes only travel to the provider. *)
Record File : Type := {
  file_type : string
}.

(** What the request to the provider comes to.  [Failed] stands for every way
    the [try] block is left before the body is read: [arrayBuffer], [fetch]
    or [json] rejecting, [response.ok] being false, a body that is JSON
    [null]. *)
Inductive provider_reply (Data : Type) : Type :=
  | Failed
  | Replied (data : Data).
Arguments Failed {Data}.
Arguments Replied {Data} data.

(** The JSON a handler answers with: an error object, or the result object
    with its optional echo of the registry. *)
Inductive body (E : Type) : Type :=
  | ErrorBody (error : string)
  | ResultBody (scores : Scores) (overallFeedback observation : string)
      (parameters : option (list E)).
Arguments ErrorBody {E} error.
Arguments ResultBody {E} scores overallFeedback observation parameters.

Record response (E : Type) : Type := {
  status : Z;
  content : body E
}.
Arguments status {E} r.
Arguments content {E} r.

(** [x || d] on a number: [NaN] and zero are falsy, so is a missing field. *)
Definition num_truthy (x : number) : bool :=
  match x with
  | NaN => false
  | Finite q => negb (Qeq_bool q 0)
  | _ => true
  end.

Definition number_or (x : option number) (d : number) : number :=
  match x with
  | Some n => if num_truthy n then n else d
  | None => d
  end.

(** [x || d] on a string and on an array or object: the empty string is
    falsy, every array and object is truthy. *)
Definition string_or (x : option string) (d : string) : string :=
  match x with
  | Some text => or_else text d
  | None => d
  end.

Definition value_or {A : Type} (x : option A) (d : A) : A :=
  match x with
  | Some a => a
  | None => d
  end.

(** [!text]. *)
Definition is_empty (text : string) : bool :=
  match text with
  | EmptyString => true
  | _ => false
  end.

(** The scores of the response that is sent when no API key is configured;
    both handlers carry the same literal. *)
Definition mocked_scores : Scores :=
  [("greeting", 5); ("collectionUrgency", 12);
   ("rebuttalCustomerHandling", 13); ("callEtiquette", 14);
   ("callDisclaimer", 0); ("correctDisposition", 10); ("callClosing", 5);
   ("fatalIdentification", 5); ("fatalTapeDiscloser", 0);
   ("fatalToneLanguage", 15)].

Definition mocked_response {E : Type} : response E :=
  {| status := 200;
     content :=
       ResultBody mocked_scores
         "The agent was confident and persuasive, though failed to provide disclaimer."
         "Customer raised objections about penalty. Agent managed well but missed tape disclosure."
         None |}.

(** [POST] of [src/app/api/analyze-call/route.ts].  The provider's body is
    read through the fields the handler reads, with the types its interfaces
    give them; [None] is a field that is absent or [null]. *)
Module HindiRoute.

Record Alternative : Type := {
  alt_transcript : option string;
  alt_utterances : option (list Hindi.Utterance);
  alt_sentiment : option string;
  alt_sentiment_score : option number;
  alt_topics : option (list Hindi.Topic);
  alt_intents : option (list Hindi.Intent)
}.

Record Channel : Type := {
  alternatives : option (list Alternative)
}.

Record Results : Type := {
  channels : option (list Channel)
}.

Record Data : Type := {
  results : option Results
}.

(** An entry of the echoed registry: [parameters.map] keeps four of the five
    properties. *)
Record EchoedParameter : Type := {
  echoed_name : string;
  echoed_weight : Z;
  description : string;
  type : InputType
}.

(** [data.results?.channels[0]?.alternatives[0]]: a missing [results], first
    channel or first alternative short-circuits to [undefined]; indexing a
    missing [channels] or [alternatives] raises. *)
Definition alternative0 (data : Data) : outcome (option Alternative) :=
  match results data with
  | None => Returns None
  | Some r =>
      chs <- deref (channels r) ;;
      match item chs 0 with
      | None => Returns None
      | Some channel =>
          alts <- deref (alternatives channel) ;;
          Returns (item alts 0)
      end
  end.

(** [data.results?.channels[0]?.alternatives[0]?.f]. *)
Definition read {A : Type} (f : Alternative -> option A) (data : Data)
    : outcome (option A) :=
  alternative <- alternative0 data ;;
  Returns (match alternative with
           | Some a => f a
           | None => None
           end).

Section Handler.

Variable toLowerCase : string -> string.

(** The body of the [try] block once the provider has replied.  The
    [console.log] calls are left out: they print and return. *)
Definition analyze_reply (reply : provider_reply Data)
    : outcome (response EchoedParameter) :=
  match reply with
  | Failed => Raises
  | Replied data =>
      transcript <- read alt_transcript data ;;
      let transcript := string_or transcript "" in
      utterances <- read alt_utterances data ;;
      let utterances := value_or utterances [] in
      label <- read alt_sentiment data ;;
      score <- read alt_sentiment_score data ;;
      let sentiment :=
        {| Hindi.sentiment := string_or label "neutral";
           Hindi.sentiment_score := number_or score (Finite 0) |} in
      topics <- read alt_topics data ;;
      let topics := value_or topics [] in
      intents <- read alt_intents data ;;
      let intents := value_or intents [] in
      if is_empty transcript
      then Returns {| status := 500; content := ErrorBody "Transcription failed" |}
      else
        result <- Hindi.POST_analysis toLowerCase utterances sentiment topics
                    intents ;;
        let '(scores, overallFeedback, observation) := result in
        Returns
          {| status := 200;
             content :=
               ResultBody scores overallFeedback observation
                 (Some (map (fun p =>
                          {| echoed_name := name p; echoed_weight := weight p;
                             description := desc p; type := inputType p |})
                        Hindi.parameters)) |}
  end.

Definition POST (file : option File) (DEEPGRAM_API_KEY : option string)
    (provider : string -> File -> provider_reply Data)
    : response EchoedParameter :=
  match file with
  | None => {| status := 400; content := ErrorBody "No file uploaded" |}
  | Some file =>
      if is_empty (string_or DEEPGRAM_API_KEY "")
      then mocked_response
      else
        match analyze_reply (provider (string_or DEEPGRAM_API_KEY "") file) with
        | Returns r => r
        | Raises =>
            {| status := 500; content := ErrorBody "Processing failed" |}
        end
  end.

End Handler.

End HindiRoute.

(** [POST] of the English-language handler. *)
Module EnglishRoute.

Record Alternative : Type := {
  alt_transcript : option string;
  alt_utterances : option (list English.Utterance);
  alt_sentiment : option English.Sentiment;
  alt_topics : option (list English.Topic);
  alt_summarize : option string;
  alt_intents : option (list English.Intent)
}.

Record Channel : Type := {
  alternatives : option (list Alternative)
}.

Record Results : Type := {
  channels : option (list Channel)
}.

Record Data : Type := {
  results : option Results
}.

Definition alternative0 (data : Data) : outcome (option Alternative) :=
  match results data with
  | None => Returns None
  | Some r =>
      chs <- deref (channels r) ;;
      match item chs 0 with
      | None => Returns None
      | Some channel =>
          alts <- deref (alternatives channel) ;;
          Returns (item alts 0)
      end
  end.

Definition read {A : Type} (f : Alternative -> option A) (data : Data)
    : outcome (option A) :=
  alternative <- alternative0 data ;;
  Returns (match alternative with
           | Some a => f a
           | None => None
           end).

Section Handler.

Variable toLowerCase : string -> string.

(** The body of the [try] block once the provider has replied; a missing
    [sentiment] becomes [{}], whose [overall] is [undefined]. *)
Definition analyze_reply (reply : provider_reply Data)
    : outcome (response ParameterEntry) :=
  match reply with
  | Failed => Raises
  | Replied data =>
      transcript <- read alt_transcript data ;;
      let transcript := string_or transcript "" in
      utterances <- read alt_utterances data ;;
      let utterances := value_or utterances [] in
      sentiment <- read alt_sentiment data ;;
      let sentiment := value_or sentiment {| English.overall := NaN |} in
      topics <- read alt_topics data ;;
      let topics := value_or topics [] in
      summary <- read alt_summarize data ;;
      let summary := string_or summary "" in
      intents <- read alt_intents data ;;
      let intents := value_or intents [] in
      if is_empty transcript
      then Returns {| status := 500; content := ErrorBody "Transcription failed" |}
      else
        result <- English.POST_analysis toLowerCase utterances sentiment topics
                    summary intents ;;
        let '(scores, overallFeedback, observation) := result in
        Returns
          {| status := 200;
             content :=
               ResultBody scores overallFeedback observation
                 (Some English.parameters) |}
  end.

Definition POST (file : option File) (DEEPGRAM_API_KEY : option string)
    (provider : string -> File -> provider_reply Data)
    : response ParameterEntry :=
  match file with
  | None => {| status := 400; content := ErrorBody "No file uploaded" |}
  | Some file =>
      if is_empty (string_or DEEPGRAM_API_KEY "")
      then mocked_response
      else
        match analyze_reply (provider (string_or DEEPGRAM_API_KEY "") file) with
        | Returns r => r
        | Raises =>
            {| status := 500; content := ErrorBody "Processing failed" |}
        end
  end.

End Handler.

End EnglishRoute.

(** ** Quantities the further properties are phrased with *)

(** The number of elements that pass a test. *)
Definition hits {A : Type} (test : A -> bool) (xs : list A) : Z :=
  Z.of_nat (List.length (filter test xs)).

Definition english_has_urgency (toLowerCase : string -> string)
    (u : English.Utterance) : bool :=
  some_keyword English.urgencyKeywords (toLowerCase (English.transcript u)).

Definition english_has_objection (toLowerCase : string -> string)
    (u : English.Utterance) : bool :=
  some_keyword English.objectionKeywords (toLowerCase (English.transcript u)).

(** The sum of the values of a score object, [totalScore] of the English
    [generateOverallFeedback]. *)
Definition total (scores : Scores) : Z :=
  fold_left (fun a b => a + b) (map snd scores) 0.

(** Two Hindi utterances that agree on text and start time, whatever their
    end time and their own sentiment. *)
Definition same_text_and_start (u v : Hindi.Utterance) : Prop :=
  Hindi.transcript u = Hindi.transcript v /\ Hindi.start u = Hindi.start v.

(** Two English utterances with the same text. *)
Definition same_text (u v : English.Utterance) : Prop :=
  English.transcript u = English.transcript v.

(** The ending the Hindi [generateOverallFeedback] falls back to. *)
Definition generic_feedback : string :=
  "The agent performed adequately but has room for improvement".

(** The answers of [POST]: an error with its status, and the result of an
    analysis as each handler sends it. *)
Definition failure {E : Type} (code : Z) (message : string) : response E :=
  {| status := code; content := ErrorBody message |}.

Definition hindi_result (result : Scores * string * string)
    : response HindiRoute.EchoedParameter :=
  let '(scores, overallFeedback, observation) := result in
  {| status := 200;
     content :=
       ResultBody scores overallFeedback observation
         (Some (map (fun p =>
                  {| HindiRoute.echoed_name := name p;
                     HindiRoute.echoed_weight := weight p;
                     HindiRoute.description := desc p;
                     HindiRoute.type := inputType p |})
                Hindi.parameters)) |}.

Definition english_result (result : Scores * string * string)
    : response ParameterEntry :=
  let '(scores, overallFeedback, observation) := result in
  {| status := 200;
     content :=
       ResultBody scores overallFeedback observation (Some English.parameters) |}.

(** The inputs the Hindi and the English handler pass to the analysis for a
    first alternative [a]: absent arrays are empty, an absent summary is the
    empty text, an absent Hindi sentiment is [neutral] with score [0], an
    absent English sentiment is the empty object. *)
Definition hindi_sentiment_of (a : HindiRoute.Alternative) : Hindi.Sentiment :=
  {| Hindi.sentiment := string_or (HindiRoute.alt_sentiment a) "neutral";
     Hindi.sentiment_score :=
       number_or (HindiRoute.alt_sentiment_score a) (Finite 0) |}.

Definition hindi_analysis_of (toLowerCase : string -> string)
    (a : HindiRoute.Alternative) : outcome (Scores * string * string) :=
  Hindi.POST_analysis toLowerCase
    (value_or (HindiRoute.alt_utterances a) []) (hindi_sentiment_of a)
    (value_or (HindiRoute.alt_topics a) [])
    (value_or (HindiRoute.alt_intents a) []).

Definition english_analysis_of (toLowerCase : string -> string)
    (a : EnglishRoute.Alternative) : outcome (Scores * string * string) :=
  English.POST_analysis toLowerCase
    (value_or (EnglishRoute.alt_utterances a) [])
    (value_or (EnglishRoute.alt_sentiment a) {| English.overall := NaN |})
    (value_or (EnglishRoute.alt_topics a) [])
    (string_or (EnglishRoute.alt_summarize a) "")
    (value_or (EnglishRoute.alt_intents a) []).



(** A file and two provider bodies for concrete runs of [POST]; neither
    body carries a sentiment. *)
Definition sample_file : File := {| file_type := "audio/mpeg" |}.

Definition hindi_sample_data : HindiRoute.Data :=
  {| HindiRoute.results := Some
       {| HindiRoute.channels := Some
            [{| HindiRoute.alternatives := Some
                  [{| HindiRoute.alt_transcript := Some "नमस्ते धन्यवाद";
                      HindiRoute.alt_utterances :=
                        Some [hi "नमस्ते" 1; hi "धन्यवाद" 20];
                      HindiRoute.alt_sentiment := None;
                      HindiRoute.alt_sentiment_score := None;
                      HindiRoute.alt_topics := None;
                      HindiRoute.alt_intents := None |}] |}] |} |}.

Definition english_sample_data : EnglishRoute.Data :=
  {| EnglishRoute.results := Some
       {| EnglishRoute.channels := Some
            [{| EnglishRoute.alternatives := Some
                  [{| EnglishRoute.alt_transcript := Some "Hello thanks";
                      EnglishRoute.alt_utterances :=
                        Some [en "Hello" 1; en "thanks" 20];
                      EnglishRoute.alt_sentiment := None;
                      EnglishRoute.alt_topics := None;
                      EnglishRoute.alt_summarize := None;
                      EnglishRoute.alt_intents := None |}] |}] |} |}.

(** ** Arrays *)

Lemma item_last {A : Type} (xs : list A) :
  item xs (Z.of_nat (List.length xs) - 1) = lastOf xs.
Proof.
  destruct xs as [|x rest]; [reflexivity|].
  unfold item.
  replace (Z.of_nat (List.length (x :: rest)) - 1)
    with (Z.of_nat (List.length rest)) by (simpl List.length; lia).
  destruct (Z.ltb_spec (Z.of_nat (List.length rest)) 0) as [Hneg|_]; [lia|].
  rewrite Nat2Z.id.
  revert x; induction rest as [|y rest IH]; intro x; [reflexivity|].
  simpl List.length. simpl nth_error. rewrite IH. reflexivity.
Qed.

Lemma length_eqb_cons {A : Type} (x : A) (rest : list A) :
  (Z.of_nat (List.length (x :: rest)) =? 0) = false.
Proof. apply Z.eqb_neq. simpl List.length. lia. Qed.

Lemma length_gtb_cons {A : Type} (x : A) (rest : list A) :
  (Z.of_nat (List.length (x :: rest)) >? 0) = true.
Proof. apply Z.gtb_lt. simpl List.length. lia. Qed.

Lemma lastOf_cons_some {A : Type} (x : A) (rest : list A) :
  exists y, lastOf (x :: rest) = Some y.
Proof.
  revert x; induction rest as [|z rest IH]; intro x.
  - exists x; reflexivity.
  - destruct (IH z) as [y Hy]. exists y. exact Hy.
Qed.

(** ** The position-based scorers never raise *)

Lemma hindi_analyzeGreeting_rule toLowerCase (us : list Hindi.Utterance) :
  Hindi.analyzeGreeting toLowerCase us =
  Returns (greeting_rule hindi_greeting_profile toLowerCase
             (option_map (fun u => (Hindi.transcript u, Hindi.start u))
                (hd_error us))).
Proof.
  destruct us as [|u rest]; [reflexivity|].
  unfold Hindi.analyzeGreeting. rewrite length_eqb_cons.
  cbn. rewrite andb_comm. reflexivity.
Qed.

Lemma english_analyzeGreeting_rule toLowerCase (us : list English.Utterance) :
  English.analyzeGreeting us =
  Returns (greeting_rule english_greeting_profile toLowerCase
             (option_map (fun u => (English.transcript u, English.start u))
                (hd_error us))).
Proof.
  destruct us as [|u rest]; [reflexivity|].
  unfold English.analyzeGreeting. rewrite length_eqb_cons.
  cbn. rewrite andb_true_r. reflexivity.
Qed.

Lemma hindi_polite_closing (text : string) :
  some_keyword Hindi.closingKeywords text &&
  (includes text "धन्यवाद" || includes text "शुक्रिया") =
  some_keyword hindi_gratitude_terms text.
Proof.
  unfold some_keyword, Hindi.closingKeywords, hindi_gratitude_terms.
  cbn [existsb].
  destruct (includes text "धन्यवाद"), (includes text "शुक्रिया");
    cbn [orb andb]; rewrite ?andb_false_r; reflexivity.
Qed.

Lemma hindi_analyzeClosing_rule toLowerCase (us : list Hindi.Utterance) :
  Hindi.analyzeClosing toLowerCase us =
  Returns (closing_rule hindi_gratitude_terms toLowerCase
             (option_map Hindi.transcript (lastOf us))).
Proof.
  destruct us as [|u rest]; [reflexivity|].
  unfold Hindi.analyzeClosing. rewrite length_eqb_cons, item_last.
  destruct (lastOf_cons_some u rest) as [l Hl]. rewrite Hl.
  cbn [deref bind option_map closing_rule].
  rewrite hindi_polite_closing. reflexivity.
Qed.

Lemma english_analyzeClosing_rule toLowerCase (us : list English.Utterance) :
  English.analyzeClosing toLowerCase us =
  Returns (closing_rule English.closingKeywords toLowerCase
             (option_map English.transcript (lastOf us))).
Proof.
  destruct us as [|u rest]; [reflexivity|].
  unfold English.analyzeClosing. rewrite length_eqb_cons, item_last.
  destruct (lastOf_cons_some u rest) as [l Hl]. rewrite Hl.
  reflexivity.
Qed.

Lemma greeting_rule_values profile toLowerCase first :
  greeting_rule profile toLowerCase first = 0 \/
  greeting_rule profile toLowerCase first = 5.
Proof.
  unfold greeting_rule. destruct first as [[text t]|]; [|now left].
  destruct (_ && _); [now right | now left].
Qed.

Lemma closing_rule_values terms toLowerCase last :
  closing_rule terms toLowerCase last = 0 \/
  closing_rule terms toLowerCase last = 5.
Proof.
  unfold closing_rule. destruct last as [text|]; [|now left].
  destruct (some_keyword _ _); [now right | now left].
Qed.

(** ** Ranges of the individual scorers *)

Lemma fold_left_bonus_nonneg {A : Type} (bonus : A -> Z) (xs : list A) (acc : Z) :
  (forall x, 0 <= bonus x) -> 0 <= acc ->
  0 <= fold_left (fun score x => score + bonus x) xs acc.
Proof.
  intros Hb. revert acc.
  induction xs as [|x rest IH]; intros acc Hacc; simpl; [exact Hacc|].
  apply IH. specialize (Hb x). lia.
Qed.

Section HindiRanges.

Variable toLowerCase : string -> string.
Variable us : list Hindi.Utterance.
Variable s : Hindi.Sentiment.
Variable intents : list Hindi.Intent.

Lemma hindi_urgency_range : 0 <= Hindi.analyzeUrgency toLowerCase us <= 15.
Proof. unfold Hindi.analyzeUrgency. lia. Qed.

Lemma hindi_rebuttal_range : 0 <= Hindi.analyzeRebuttal toLowerCase us <= 15.
Proof.
  unfold Hindi.analyzeRebuttal.
  destruct (_ >? 0); lia.
Qed.

Lemma hindi_etiquette_values :
  In (Hindi.analyzeEtiquette s) [15; 11; 5; 1].
Proof.
  unfold Hindi.analyzeEtiquette.
  destruct (num_gt _ double_0_3); [simpl; auto|].
  destruct (num_gt _ 0); [simpl; auto|].
  destruct (num_gt _ (- double_0_3)); simpl; auto.
Qed.

Lemma hindi_disclaimer_values :
  In (Hindi.analyzeDisclaimer toLowerCase us) [0; 5].
Proof. unfold Hindi.analyzeDisclaimer. destruct (existsb _ _); simpl; auto. Qed.

Lemma hindi_disposition_values :
  In (Hindi.analyzeDisposition toLowerCase us intents) [0; 5; 10].
Proof.
  unfold Hindi.analyzeDisposition.
  destruct (existsb _ us) eqn:E1; [simpl; auto|].
  destruct (_ || _); simpl; auto.
Qed.

Lemma hindi_identification_values :
  In (Hindi.analyzeIdentification toLowerCase us) [0; 5].
Proof. unfold Hindi.analyzeIdentification. destruct (existsb _ _); simpl; auto. Qed.

Lemma hindi_tape_values :
  In (Hindi.analyzeTapeDisclosure toLowerCase us) [0; 10].
Proof. unfold Hindi.analyzeTapeDisclosure. destruct (existsb _ _); simpl; auto. Qed.

Lemma hindi_tone_values :
  In (Hindi.analyzeToneLanguage toLowerCase s us) [0; 5; 10; 15].
Proof.
  unfold Hindi.analyzeToneLanguage.
  destruct (_ || _); [simpl; auto|].
  destruct (num_lt _ (- double_0_1)); [simpl; auto|].
  destruct (num_lt _ double_0_1); simpl; auto.
Qed.

End HindiRanges.

Section EnglishRanges.

Variable toLowerCase : string -> string.
Variable us : list English.Utterance.
Variable s : English.Sentiment.
Variable intents : list English.Intent.

Lemma english_urgency_range : 0 <= English.analyzeUrgency toLowerCase us <= 15.
Proof.
  unfold English.analyzeUrgency.
  pose proof (fold_left_bonus_nonneg
    (fun u : English.Utterance =>
       if some_keyword English.urgencyKeywords
            (toLowerCase (English.transcript u)) then 3 else 0) us 0) as H.
  cbv beta in H.
  assert (H0 : 0 <= fold_left
     (fun score u =>
        score + (if some_keyword English.urgencyKeywords
                      (toLowerCase (English.transcript u)) then 3 else 0)) us 0).
  { apply H; [|lia]. intro x. destruct (some_keyword _ _); lia. }
  lia.
Qed.

Lemma english_rebuttal_range : 0 <= English.analyzeRebuttal toLowerCase us <= 15.
Proof.
  unfold English.analyzeRebuttal.
  assert (H0 : 0 <= fold_left
     (fun score u =>
        score + (if some_keyword English.objectionKeywords
                      (toLowerCase (English.transcript u)) then 3 else 0)) us 0).
  { apply (fold_left_bonus_nonneg
      (fun u : English.Utterance =>
         if some_keyword English.objectionKeywords
              (toLowerCase (English.transcript u)) then 3 else 0)); [|lia].
    intro x. destruct (some_keyword _ _); lia. }
  lia.
Qed.

Lemma english_etiquette_values : In (English.analyzeEtiquette s) [10; 14].
Proof. unfold English.analyzeEtiquette. destruct (num_gt _ 0); simpl; auto. Qed.

Lemma english_disclaimer_values :
  In (English.analyzeDisclaimer toLowerCase us) [0; 5].
Proof. unfold English.analyzeDisclaimer. destruct (existsb _ _); simpl; auto. Qed.

Lemma english_disposition_values :
  In (English.analyzeDisposition us intents) [0; 10].
Proof. unfold English.analyzeDisposition. destruct (existsb _ _); simpl; auto. Qed.

Lemma english_identification_values :
  In (English.analyzeIdentification toLowerCase us) [0; 5].
Proof. unfold English.analyzeIdentification. destruct (existsb _ _); simpl; auto. Qed.

Lemma english_tape_values :
  In (English.analyzeTapeDisclosure toLowerCase us) [0; 10].
Proof. unfold English.analyzeTapeDisclosure. destruct (existsb _ _); simpl; auto. Qed.

Lemma english_tone_values :
  In (English.analyzeToneLanguage toLowerCase s us) [0; 15].
Proof. unfold English.analyzeToneLanguage. destruct (existsb _ _); simpl; auto. Qed.

End EnglishRanges.

(** ** The analysis step as a whole *)

Lemma hindi_POST_scores_returns toLowerCase us s intents :
  Hindi.POST_scores toLowerCase us s intents =
  Returns [
    ("greeting",
     greeting_rule hindi_greeting_profile toLowerCase
       (option_map (fun u => (Hindi.transcript u, Hindi.start u)) (hd_error us)));
    ("collectionUrgency", Hindi.analyzeUrgency toLowerCase us);
    ("rebuttalCustomerHandling", Hindi.analyzeRebuttal toLowerCase us);
    ("callEtiquette", Hindi.analyzeEtiquette s);
    ("callDisclaimer", Hindi.analyzeDisclaimer toLowerCase us);
    ("correctDisposition", Hindi.analyzeDisposition toLowerCase us intents);
    ("callClosing",
     closing_rule hindi_gratitude_terms toLowerCase
       (option_map Hindi.transcript (lastOf us)));
    ("fatalIdentification", Hindi.analyzeIdentification toLowerCase us);
    ("fatalTapeDiscloser", Hindi.analyzeTapeDisclosure toLowerCase us);
    ("fatalToneLanguage", Hindi.analyzeToneLanguage toLowerCase s us)
  ].
Proof.
  unfold Hindi.POST_scores.
  rewrite hindi_analyzeGreeting_rule, hindi_analyzeClosing_rule.
  reflexivity.
Qed.

Lemma english_POST_scores_returns toLowerCase us s intents :
  English.POST_scores toLowerCase us s intents =
  Returns [
    ("greeting",
     greeting_rule english_greeting_profile toLowerCase
       (option_map (fun u => (English.transcript u, English.start u))
          (hd_error us)));
    ("collectionUrgency", English.analyzeUrgency toLowerCase us);
    ("rebuttalCustomerHandling", English.analyzeRebuttal toLowerCase us);
    ("callEtiquette", English.analyzeEtiquette s);
    ("callDisclaimer", English.analyzeDisclaimer toLowerCase us);
    ("correctDisposition", English.analyzeDisposition us intents);
    ("callClosing",
     closing_rule English.closingKeywords toLowerCase
       (option_map English.transcript (lastOf us)));
    ("fatalIdentification", English.analyzeIdentification toLowerCase us);
    ("fatalTapeDiscloser", English.analyzeTapeDisclosure toLowerCase us);
    ("fatalToneLanguage", English.analyzeToneLanguage toLowerCase s us)
  ].
Proof.
  unfold English.POST_scores.
  rewrite (english_analyzeGreeting_rule toLowerCase), english_analyzeClosing_rule.
  reflexivity.
Qed.

(** Neither handler's analysis ever raises: the two guarded array reads
    are the only places that could. *)
Lemma POST_analysis_returns toLowerCase :
  (forall us s topics intents,
     exists result,
       Hindi.POST_analysis toLowerCase us s topics intents = Returns result) /\
  (forall us s topics summary intents,
     exists result,
       English.POST_analysis toLowerCase us s topics summary intents =
       Returns result).
Proof.
  split; intros.
  - unfold Hindi.POST_analysis. rewrite hindi_POST_scores_returns.
    eexists. reflexivity.
  - unfold English.POST_analysis. rewrite english_POST_scores_returns.
    eexists. reflexivity.
Qed.

(** Ten scores, each known to lie in its interval, pass the registry check.
    The scores stay abstract, so the registry and the keys are all that is
    evaluated. *)
Lemma ten_scores_within_weights
    (ps : list ParameterEntry) (g u r e d c k i t l : Z) :
  map (fun p => (key p, weight p)) ps =
    [("greeting", 5); ("collectionUrgency", 15);
     ("rebuttalCustomerHandling", 15); ("callEtiquette", 15);
     ("callDisclaimer", 5); ("correctDisposition", 10); ("callClosing", 5);
     ("fatalIdentification", 5); ("fatalTapeDiscloser", 10);
     ("fatalToneLanguage", 15)] ->
  0 <= g <= 5 -> 0 <= u <= 15 -> 0 <= r <= 15 -> 0 <= e <= 15 ->
  0 <= d <= 5 -> 0 <= c <= 10 -> 0 <= k <= 5 -> 0 <= i <= 5 ->
  0 <= t <= 10 -> 0 <= l <= 15 ->
  forallb (within_weight
    [("greeting", g); ("collectionUrgency", u);
     ("rebuttalCustomerHandling", r); ("callEtiquette", e);
     ("callDisclaimer", d); ("correctDisposition", c); ("callClosing", k);
     ("fatalIdentification", i); ("fatalTapeDiscloser", t);
     ("fatalToneLanguage", l)]) ps = true.
Proof.
  intros Hps Hg Hu Hr He Hd Hc Hk Hi Ht Hl.
  assert (Hall : forall p, In p ps ->
            In (key p, weight p) (map (fun p => (key p, weight p)) ps)).
  { intros p Hp. apply (in_map (fun p => (key p, weight p))), Hp. }
  rewrite Hps in Hall.
  apply forallb_forall. intros p Hp. specialize (Hall p Hp).
  unfold within_weight.
  simpl in Hall.
  repeat (destruct Hall as [Hall|Hall];
    [injection Hall as Hkey Hweight; rewrite <- Hkey, <- Hweight;
     cbn; apply andb_true_iff; split; apply Z.leb_le; lia|]).
  contradiction.
Qed.

(** C1. For every transcript the analysis step returns a score object in
    which each of the ten registry keys has a value between [0] and the
    weight the registry declares for it, and the declared weights sum to
    [100]; this holds for the Hindi and for the English handler. *)
Theorem C1_scores_within_weights (toLowerCase : string -> string) :
  (forall us s intents,
     exists scores,
       Hindi.POST_scores toLowerCase us s intents = Returns scores /\
       forallb (within_weight scores) Hindi.parameters = true) /\
  sum_weights Hindi.parameters = 100 /\
  List.length Hindi.parameters = 10%nat /\
  (forall us s intents,
     exists scores,
       English.POST_scores toLowerCase us s intents = Returns scores /\
       forallb (within_weight scores) English.parameters = true) /\
  sum_weights English.parameters = 100 /\
  List.length English.parameters = 10%nat.
Proof.
  repeat split; try reflexivity.
  - intros us s intents. eexists. split.
    + apply hindi_POST_scores_returns.
    + apply ten_scores_within_weights; [reflexivity|..].
      * destruct (greeting_rule_values hindi_greeting_profile toLowerCase
          (option_map (fun u => (Hindi.transcript u, Hindi.start u))
             (hd_error us))) as [H|H]; rewrite H; lia.
      * apply hindi_urgency_range.
      * apply hindi_rebuttal_range.
      * pose proof (hindi_etiquette_values s) as H. simpl in H. lia.
      * pose proof (hindi_disclaimer_values toLowerCase us) as H. simpl in H. lia.
      * pose proof (hindi_disposition_values toLowerCase us intents) as H.
        simpl in H. lia.
      * destruct (closing_rule_values hindi_gratitude_terms toLowerCase
          (option_map Hindi.transcript (lastOf us))) as [H|H]; rewrite H; lia.
      * pose proof (hindi_identification_values toLowerCase us) as H.
        simpl in H. lia.
      * pose proof (hindi_tape_values toLowerCase us) as H. simpl in H. lia.
      * pose proof (hindi_tone_values toLowerCase us s) as H. simpl in H. lia.
  - intros us s intents. eexists. split.
    + apply english_POST_scores_returns.
    + apply ten_scores_within_weights; [reflexivity|..].
      * destruct (greeting_rule_values english_greeting_profile toLowerCase
          (option_map (fun u => (English.transcript u, English.start u))
             (hd_error us))) as [H|H]; rewrite H; lia.
      * apply english_urgency_range.
      * apply english_rebuttal_range.
      * pose proof (english_etiquette_values s) as H. simpl in H. lia.
      * pose proof (english_disclaimer_values toLowerCase us) as H. simpl in H. lia.
      * pose proof (english_disposition_values us intents) as H. simpl in H. lia.
      * destruct (closing_rule_values English.closingKeywords toLowerCase
          (option_map English.transcript (lastOf us))) as [H|H]; rewrite H; lia.
      * pose proof (english_identification_values toLowerCase us) as H.
        simpl in H. lia.
      * pose proof (english_tape_values toLowerCase us) as H. simpl in H. lia.
      * pose proof (english_tone_values toLowerCase us s) as H. simpl in H. lia.
Qed.

(** ** Rebuttal scoring *)

(** What the loop of the Hindi [analyzeRebuttal] leaves in its counters: as
    [lastObjectionIndex] never exceeds the current index, the test
    [index > lastObjectionIndex] fails only on an utterance that itself has
    an objection hit. *)
Lemma hindi_rebuttal_loop toLowerCase (us : list Hindi.Utterance) :
  forall index st,
    Hindi.lastObjectionIndex st < index ->
    let st' := forEach (Hindi.rebuttal_step toLowerCase) us index st in
    Hindi.objectionCount st' =
      Hindi.objectionCount st +
      Z.of_nat (List.length (filter (has_objection toLowerCase) us)) /\
    Hindi.rebuttalCount st' =
      Hindi.rebuttalCount st +
      Z.of_nat (List.length (filter (rebuttal_without_objection toLowerCase) us)).
Proof.
  induction us as [|u rest IH]; intros index st Hlast; cbn zeta.
  - simpl. lia.
  - cbn [forEach filter].
    unfold rebuttal_without_objection, has_objection in *.
    unfold Hindi.rebuttal_step at 2 4.
    destruct (some_keyword Hindi.objectionKeywords _) eqn:Hobj;
    destruct (some_keyword Hindi.rebuttalKeywords _) eqn:Hreb;
    cbn [andb negb Hindi.lastObjectionIndex Hindi.objectionCount
         Hindi.rebuttalCount].
    + rewrite Z.gtb_ltb, Z.ltb_irrefl.
      edestruct IH as [Ho Hr]; [|rewrite Ho, Hr];
        cbn [Hindi.lastObjectionIndex Hindi.objectionCount Hindi.rebuttalCount
             List.length]; lia.
    + edestruct IH as [Ho Hr]; [|rewrite Ho, Hr];
        cbn [Hindi.lastObjectionIndex Hindi.objectionCount Hindi.rebuttalCount
             List.length]; lia.
    + replace (index >? Hindi.lastObjectionIndex st) with true
        by (symmetry; apply Z.gtb_lt; lia).
      edestruct IH as [Ho Hr]; [|rewrite Ho, Hr];
        cbn [Hindi.lastObjectionIndex Hindi.objectionCount Hindi.rebuttalCount
             List.length]; lia.
    + edestruct IH as [Ho Hr]; [|rewrite Ho, Hr];
        cbn [Hindi.lastObjectionIndex Hindi.objectionCount Hindi.rebuttalCount
             List.length]; lia.
Qed.

Lemma hindi_rebuttal_counters toLowerCase (us : list Hindi.Utterance) :
  Hindi.objectionCount (Hindi.rebuttal_counters toLowerCase us) =
    Z.of_nat (List.length (filter (has_objection toLowerCase) us)) /\
  Hindi.rebuttalCount (Hindi.rebuttal_counters toLowerCase us) =
    Z.of_nat (List.length (filter (rebuttal_without_objection toLowerCase) us)).
Proof.
  unfold Hindi.rebuttal_counters.
  destruct (hindi_rebuttal_loop toLowerCase us 0
    {| Hindi.objectionCount := 0; Hindi.rebuttalCount := 0;
       Hindi.lastObjectionIndex := -1 |}) as [Ho Hr]; [simpl; lia|].
  rewrite Ho, Hr. simpl. split; reflexivity.
Qed.

(** With no objection hit anywhere the rebuttal score is [0], whatever the
    number of rebuttal hits; the English scorer has no rebuttal lexicon and
    gives [0] as well. *)
Lemma rebuttal_zero_without_objection toLowerCase :
  (forall us, existsb (has_objection toLowerCase) us = false ->
     Hindi.analyzeRebuttal toLowerCase us = 0) /\
  (forall us,
     existsb (fun u => some_keyword English.objectionKeywords
                         (toLowerCase (English.transcript u))) us = false ->
     English.analyzeRebuttal toLowerCase us = 0).
Proof.
  split.
  - intros us Hnone. unfold Hindi.analyzeRebuttal.
    assert (Hf : filter (has_objection toLowerCase) us = []).
    { induction us as [|u rest IH]; [reflexivity|].
      simpl in Hnone. apply orb_false_iff in Hnone as [Hu Hrest].
      simpl. rewrite Hu. apply IH, Hrest. }
    destruct (hindi_rebuttal_counters toLowerCase us) as [Ho _].
    rewrite Hf in Ho. rewrite Ho. reflexivity.
  - intros us Hnone. unfold English.analyzeRebuttal.
    assert (Hf : forall acc,
      fold_left (fun score u =>
        score + (if some_keyword English.objectionKeywords
                      (toLowerCase (English.transcript u)) then 3 else 0))
        us acc = acc).
    { induction us as [|u rest IH]; intro acc; [reflexivity|].
      simpl in Hnone. apply orb_false_iff in Hnone as [Hu Hrest].
      simpl. rewrite Hu, IH by exact Hrest. lia. }
    rewrite Hf. reflexivity.
Qed.

(** C2. A rebuttal hit that comes before any objection is counted by the
    Hindi [analyzeRebuttal]: on a rebuttal-only utterance followed by an
    objection-only utterance the rebuttal counter ends at [1] and the score
    is [5], where the objection alone scores [0]. *)
Theorem C2_rebuttal_before_objection_is_counted :
  let rebuttal_first := [hi "लेकिन सुनिए" 0; hi "नहीं" 4] in
  Hindi.rebuttalCount (Hindi.rebuttal_counters asciiLowerCase rebuttal_first) = 1 /\
  Hindi.objectionCount (Hindi.rebuttal_counters asciiLowerCase rebuttal_first) = 1 /\
  Hindi.analyzeRebuttal asciiLowerCase rebuttal_first = 5 /\
  Hindi.analyzeRebuttal asciiLowerCase [hi "नहीं" 4] = 0.
Proof. vm_compute. repeat split; reflexivity. Qed.

(** ** Pass/fail parameters *)

Lemma ten_scores_pass_fail
    (ps : list ParameterEntry) (g u r e d c k i t l : Z) :
  map (fun p => (key p, weight p, inputType p)) ps =
    [("greeting", 5, PASS_FAIL); ("collectionUrgency", 15, SCORE);
     ("rebuttalCustomerHandling", 15, SCORE); ("callEtiquette", 15, SCORE);
     ("callDisclaimer", 5, PASS_FAIL); ("correctDisposition", 10, PASS_FAIL);
     ("callClosing", 5, PASS_FAIL); ("fatalIdentification", 5, PASS_FAIL);
     ("fatalTapeDiscloser", 10, PASS_FAIL);
     ("fatalToneLanguage", 15, PASS_FAIL)] ->
  In g [0; 5] -> In d [0; 5] -> In c [0; 10] -> In k [0; 5] -> In i [0; 5] ->
  In t [0; 10] -> In l [0; 15] ->
  forallb (pass_fail_respected
    [("greeting", g); ("collectionUrgency", u);
     ("rebuttalCustomerHandling", r); ("callEtiquette", e);
     ("callDisclaimer", d); ("correctDisposition", c); ("callClosing", k);
     ("fatalIdentification", i); ("fatalTapeDiscloser", t);
     ("fatalToneLanguage", l)]) ps = true.
Proof.
  intros Hps Hg Hd Hc Hk Hi Ht Hl.
  assert (Hall : forall p, In p ps ->
            In (key p, weight p, inputType p)
               (map (fun p => (key p, weight p, inputType p)) ps)).
  { intros p Hp. apply (in_map (fun p => (key p, weight p, inputType p))), Hp. }
  rewrite Hps in Hall.
  apply forallb_forall. intros p Hp. specialize (Hall p Hp).
  unfold pass_fail_respected.
  simpl in Hall, Hg, Hd, Hc, Hk, Hi, Ht, Hl.
  repeat (destruct Hall as [Hall|Hall];
    [injection Hall as Hkey Hweight Htype;
     rewrite <- Hkey, <- Hweight, <- Htype;
     cbn; try reflexivity; apply orb_true_iff; rewrite !Z.eqb_eq; lia|]).
  contradiction.
Qed.

(** C3, as the code has it. In the English handler every [PASS_FAIL]
    parameter is awarded [0] or its full weight, [correctDisposition] being
    [0] or [10]. In the Hindi handler that holds for [greeting],
    [callDisclaimer], [callClosing], [fatalIdentification] and
    [fatalTapeDiscloser], while [correctDisposition] is graded [0], [5] or
    [10] and [fatalToneLanguage] is graded [0], [5], [10] or [15]. *)
Theorem C3_pass_fail_awards (toLowerCase : string -> string) :
  (forall us s intents,
     exists scores,
       English.POST_scores toLowerCase us s intents = Returns scores /\
       forallb (pass_fail_respected scores) English.parameters = true /\
       awarded scores "correctDisposition" [0; 10]) /\
  (forall us s intents,
     exists scores,
       Hindi.POST_scores toLowerCase us s intents = Returns scores /\
       awarded scores "greeting" [0; 5] /\
       awarded scores "callDisclaimer" [0; 5] /\
       awarded scores "callClosing" [0; 5] /\
       awarded scores "fatalIdentification" [0; 5] /\
       awarded scores "fatalTapeDiscloser" [0; 10] /\
       awarded scores "correctDisposition" [0; 5; 10] /\
       awarded scores "fatalToneLanguage" [0; 5; 10; 15]).
Proof.
  split; intros us s intents; eexists;
    (split; [first [apply english_POST_scores_returns
                   | apply hindi_POST_scores_returns]|]).
  - split.
    + apply ten_scores_pass_fail; [reflexivity|..].
      * destruct (greeting_rule_values english_greeting_profile toLowerCase
          (option_map (fun u => (English.transcript u, English.start u))
             (hd_error us))) as [H|H]; rewrite H; simpl; auto.
      * apply english_disclaimer_values.
      * apply english_disposition_values.
      * destruct (closing_rule_values English.closingKeywords toLowerCase
          (option_map English.transcript (lastOf us))) as [H|H];
          rewrite H; simpl; auto.
      * apply english_identification_values.
      * apply english_tape_values.
      * apply english_tone_values.
    + eexists; split; [reflexivity | apply english_disposition_values].
  - repeat split; (eexists; split; [reflexivity|]).
    + destruct (greeting_rule_values hindi_greeting_profile toLowerCase
        (option_map (fun u => (Hindi.transcript u, Hindi.start u))
           (hd_error us))) as [H|H]; rewrite H; simpl; auto.
    + apply hindi_disclaimer_values.
    + destruct (closing_rule_values hindi_gratitude_terms toLowerCase
        (option_map Hindi.transcript (lastOf us))) as [H|H];
        rewrite H; simpl; auto.
    + apply hindi_identification_values.
    + apply hindi_tape_values.
    + apply hindi_disposition_values.
    + apply hindi_tone_values.
Qed.

(** C3 as stated fails on the Hindi handler: a disposition term without a
    causal connective earns [correctDisposition] half its weight, and a
    mildly negative call earns [fatalToneLanguage] a third of its weight. *)
Lemma C3_hindi_partial_credit :
  exists scores,
    Hindi.POST_scores asciiLowerCase [hi "श्रेणी दर्ज की गई" 10]
      (hindi_sentiment (-0.25)) [] = Returns scores /\
    forallb (pass_fail_respected scores) Hindi.parameters = false /\
    get scores "correctDisposition" = Some 5 /\
    get scores "fatalToneLanguage" = Some 5.
Proof. eexists. vm_compute. repeat split; reflexivity. Qed.

(** ** Greeting *)

Lemma greeting_rule_full_weight profile toLowerCase text startSeconds :
  greeting_rule profile toLowerCase (Some (text, startSeconds)) = 5 <->
  num_le startSeconds (greetingSeconds profile) = true /\
  (lexicalConfirmation profile = true ->
   some_keyword (greetingLexicon profile) (toLowerCase text) = true).
Proof.
  unfold greeting_rule.
  destruct (num_le startSeconds (greetingSeconds profile));
  destruct (lexicalConfirmation profile);
  destruct (some_keyword (greetingLexicon profile) (toLowerCase text));
  cbn; intuition discriminate.
Qed.

Lemma no_term_in_empty_text (terms : list string) :
  Forall (fun k => k <> "") terms -> some_keyword terms "" = false.
Proof.
  induction 1 as [|k rest Hk _ IH]; [reflexivity|].
  unfold some_keyword in *. cbn [existsb]. rewrite IH.
  destruct k; [contradiction | reflexivity].
Qed.

(** C4, as the code has it. Greeting scoring reads utterance 0 only and
    awards [5] iff its start time is within the window and, where the profile
    asks for lexical confirmation, its lower-cased text contains a greeting
    term; no utterance gives [0]. The Hindi handler is the profile with a
    3-second window and lexical confirmation, the English handler the profile
    with a 5-second window and no lexical check, under which
    [Hello, good morning] scores [5] at [2.0] and [0] at [8.0]. *)
Theorem C4_greeting_rule (toLowerCase : string -> string) :
  (forall us,
     Hindi.analyzeGreeting toLowerCase us =
     Returns (greeting_rule hindi_greeting_profile toLowerCase
                (option_map (fun u => (Hindi.transcript u, Hindi.start u))
                   (hd_error us)))) /\
  (forall us,
     English.analyzeGreeting us =
     Returns (greeting_rule english_greeting_profile toLowerCase
                (option_map (fun u => (English.transcript u, English.start u))
                   (hd_error us)))) /\
  (forall profile text startSeconds,
     greeting_rule profile toLowerCase (Some (text, startSeconds)) = 5 <->
     num_le startSeconds (greetingSeconds profile) = true /\
     (lexicalConfirmation profile = true ->
      some_keyword (greetingLexicon profile) (toLowerCase text) = true)) /\
  (forall profile text startSeconds,
     greeting_rule profile toLowerCase (Some (text, startSeconds)) = 5 \/
     greeting_rule profile toLowerCase (Some (text, startSeconds)) = 0) /\
  Hindi.analyzeGreeting toLowerCase [] = Returns 0 /\
  English.analyzeGreeting [] = Returns 0 /\
  (forall rest,
     English.analyzeGreeting (en "Hello, good morning" 2.0 :: rest) = Returns 5) /\
  (forall rest,
     English.analyzeGreeting (en "Hello, good morning" 8.0 :: rest) = Returns 0).
Proof.
  split; [intro us; apply hindi_analyzeGreeting_rule|].
  split; [intro us; apply english_analyzeGreeting_rule|].
  split; [intros; apply greeting_rule_full_weight|].
  split.
  { intros profile text t.
    destruct (greeting_rule_values profile toLowerCase (Some (text, t)));
      auto. }
  repeat split; intros;
    try rewrite (english_analyzeGreeting_rule toLowerCase); reflexivity.
Qed.

(** C4 as stated fails: the English handler does not ask for lexical
    confirmation. No profile with lexical confirmation describes it, since an
    opening utterance with an empty text at [2.0] is awarded [5]. *)
Lemma C4_english_greeting_is_time_only :
  ~ exists profile,
      lexicalConfirmation profile = true /\
      Forall (fun k => k <> "") (greetingLexicon profile) /\
      forall us,
        English.analyzeGreeting us =
        Returns (greeting_rule profile asciiLowerCase
                   (option_map (fun u => (English.transcript u, English.start u))
                      (hd_error us))).
Proof.
  intros [profile [Hlex [Hterms Hrule]]].
  specialize (Hrule [en "" 2.0]).
  cbn in Hrule. rewrite Hlex in Hrule.
  rewrite (no_term_in_empty_text _ Hterms) in Hrule.
  rewrite andb_false_r in Hrule. discriminate.
Qed.

(** The same opening utterance on the Hindi handler, which does ask for a
    term of its own lexicon. *)
Example hindi_greeting_needs_hindi_term :
  Hindi.analyzeGreeting asciiLowerCase [hi "Hello, good morning" 2.0] = Returns 0 /\
  Hindi.analyzeGreeting asciiLowerCase [hi "नमस्ते, गुड मॉर्निंग" 2.0] = Returns 5 /\
  Hindi.analyzeGreeting asciiLowerCase [hi "नमस्ते, गुड मॉर्निंग" 3.5] = Returns 0.
Proof. vm_compute. repeat split; reflexivity. Qed.

(** ** Tone and language *)

(** C5. If any utterance's lower-cased text contains a negative-language
    term, the Tone & Language score is [0] whatever the call-level
    sentiment, in both handlers. *)
Theorem C5_negative_language_forces_zero (toLowerCase : string -> string) :
  (forall s us,
     Exists (fun u =>
       some_keyword Hindi.negativeKeywords
         (toLowerCase (Hindi.transcript u)) = true) us ->
     Hindi.analyzeToneLanguage toLowerCase s us = 0) /\
  (forall s us,
     Exists (fun u =>
       some_keyword English.negativeKeywords
         (toLowerCase (English.transcript u)) = true) us ->
     English.analyzeToneLanguage toLowerCase s us = 0).
Proof.
  split; intros s us Hneg; apply Exists_exists in Hneg as [u [Hin Hu]].
  - unfold Hindi.analyzeToneLanguage.
    replace (existsb _ us) with true; [reflexivity|].
    symmetry. apply existsb_exists. exists u. split; assumption.
  - unfold English.analyzeToneLanguage.
    replace (existsb _ us) with true; [reflexivity|].
    symmetry. apply existsb_exists. exists u. split; assumption.
Qed.

(** C5 on two calls with a clearly positive call-level sentiment. *)
Lemma C5_negative_language_witness :
  Hindi.analyzeToneLanguage asciiLowerCase (hindi_sentiment 0.75)
    [hi "नमस्ते" 1; hi "यह सेवा बेकार है" 7] = 0 /\
  English.analyzeToneLanguage asciiLowerCase (english_sentiment 0.75)
    [en "Hello" 1; en "You are RUDE" 7] = 0.
Proof.
  split.
  - apply (proj1 (C5_negative_language_forces_zero asciiLowerCase)).
    apply Exists_cons_tl, Exists_cons_hd. reflexivity.
  - apply (proj2 (C5_negative_language_forces_zero asciiLowerCase)).
    apply Exists_cons_tl, Exists_cons_hd. reflexivity.
Defined.

(** ** Call closing *)

(** C6, as the code has it. Closing scoring reads the last utterance only
    and gives [0] when there is none. The Hindi handler awards [5] iff the
    lower-cased text contains one of the two thank-you terms, so that the
    closing word for bye alone earns nothing; the English handler awards [5]
    iff it contains any term of its closing lexicon, [bye] included. *)
Theorem C6_closing_rule (toLowerCase : string -> string) :
  (forall us,
     Hindi.analyzeClosing toLowerCase us =
     Returns (closing_rule hindi_gratitude_terms toLowerCase
                (option_map Hindi.transcript (lastOf us)))) /\
  (forall us,
     English.analyzeClosing toLowerCase us =
     Returns (closing_rule English.closingKeywords toLowerCase
                (option_map English.transcript (lastOf us)))) /\
  Hindi.analyzeClosing toLowerCase [] = Returns 0 /\
  English.analyzeClosing toLowerCase [] = Returns 0 /\
  Hindi.analyzeClosing asciiLowerCase [hi "धन्यवाद" 1; hi "बाय" 30] = Returns 0 /\
  Hindi.analyzeClosing asciiLowerCase [hi "बाय" 1; hi "धन्यवाद" 30] = Returns 5 /\
  English.analyzeClosing asciiLowerCase [en "thanks" 1; en "bye" 30] = Returns 5.
Proof.
  split; [intro us; apply hindi_analyzeClosing_rule|].
  split; [intro us; apply english_analyzeClosing_rule|].
  repeat split; reflexivity.
Qed.

(** C6 as stated fails on the English handler: no set of gratitude terms
    that leaves [bye] out describes it, since a call ending on [bye] is
    awarded [5]. *)
Lemma C6_english_bye_earns_weight :
  ~ exists gratitude,
      some_keyword gratitude "bye" = false /\
      forall us,
        English.analyzeClosing asciiLowerCase us =
        Returns (closing_rule gratitude asciiLowerCase
                   (option_map English.transcript (lastOf us))).
Proof.
  intros [gratitude [Hbye Hrule]].
  specialize (Hrule [en "Okay" 1; en "bye" 30]).
  rewrite english_analyzeClosing_rule in Hrule.
  cbn [lastOf option_map closing_rule en English.transcript] in Hrule.
  change (asciiLowerCase "bye") with "bye" in Hrule.
  rewrite Hbye in Hrule.
  vm_compute in Hrule. discriminate.
Qed.

(** ** Empty transcripts *)

(** C7. On an empty utterance list every position- or time-based scorer of
    either handler returns its zero case ([0]), the analysis step returns a
    score object instead of raising, and both synthesizers produce their
    text. *)
Theorem C7_empty_utterances_degrade (toLowerCase : string -> string) :
  (forall s topics intents,
     Hindi.analyzeGreeting toLowerCase [] = Returns 0 /\
     Hindi.analyzeUrgency toLowerCase [] = 0 /\
     Hindi.analyzeRebuttal toLowerCase [] = 0 /\
     Hindi.analyzeDisclaimer toLowerCase [] = 0 /\
     Hindi.analyzeClosing toLowerCase [] = Returns 0 /\
     Hindi.analyzeIdentification toLowerCase [] = 0 /\
     Hindi.analyzeTapeDisclosure toLowerCase [] = 0 /\
     let scores :=
       [("greeting", 0); ("collectionUrgency", 0);
        ("rebuttalCustomerHandling", 0);
        ("callEtiquette", Hindi.analyzeEtiquette s);
        ("callDisclaimer", 0);
        ("correctDisposition", Hindi.analyzeDisposition toLowerCase [] intents);
        ("callClosing", 0); ("fatalIdentification", 0);
        ("fatalTapeDiscloser", 0);
        ("fatalToneLanguage", Hindi.analyzeToneLanguage toLowerCase s [])] in
     Hindi.POST_analysis toLowerCase [] s topics intents =
     Returns
       (scores,
        Hindi.generateOverallFeedback scores s,
        or_else
          (join ". "
             (["Agent missed tape disclosure";
               "Customer identification was not properly verified"] ++
              Hindi.topic_clause topics s ++
              ["Call ended without proper closing"])%list)
          fallback_observation)) /\
  (forall s topics summary intents,
     English.analyzeGreeting [] = Returns 0 /\
     English.analyzeUrgency toLowerCase [] = 0 /\
     English.analyzeRebuttal toLowerCase [] = 0 /\
     English.analyzeDisclaimer toLowerCase [] = 0 /\
     English.analyzeClosing toLowerCase [] = Returns 0 /\
     English.analyzeIdentification toLowerCase [] = 0 /\
     English.analyzeTapeDisclosure toLowerCase [] = 0 /\
     let scores :=
       [("greeting", 0); ("collectionUrgency", 0);
        ("rebuttalCustomerHandling", 0);
        ("callEtiquette", English.analyzeEtiquette s);
        ("callDisclaimer", 0);
        ("correctDisposition", English.analyzeDisposition [] intents);
        ("callClosing", 0); ("fatalIdentification", 0);
        ("fatalTapeDiscloser", 0);
        ("fatalToneLanguage", 15)] in
     English.POST_analysis toLowerCase [] s topics summary intents =
     Returns
       (scores,
        English.generateOverallFeedback scores s summary,
        English.generateObservation [] topics s)).
Proof.
  split; intros; repeat split; reflexivity.
Qed.

(** ** The observation synthesizers *)

Lemma clause_text_append (a b : string) : clause_text a -> clause_text (a ++ b).
Proof. destruct a; [contradiction | exact (fun H => H)]. Qed.

Lemma join_clause_text (sep : string) (parts : list string) :
  Forall clause_text parts -> parts <> [] -> clause_text (join sep parts).
Proof.
  intros Hall Hne. destruct Hall as [|p rest Hp Hrest]; [contradiction|].
  destruct rest; [exact Hp|].
  cbn [join]. apply clause_text_append, Hp.
Qed.

(** The fallback is returned exactly when no clause was pushed. *)
Lemma fallback_iff_no_clause (observations : list string) :
  Forall clause_text observations ->
  (or_else (join ". " observations) fallback_observation = fallback_observation
   <-> observations = []).
Proof.
  intros Hall. split.
  - intro Hfb. destruct observations as [|p rest]; [reflexivity|].
    assert (Hc : clause_text (join ". " (p :: rest)))
      by (apply join_clause_text; [exact Hall | discriminate]).
    destruct (join ". " (p :: rest)) as [|c text]; [contradiction|].
    cbn in Hfb, Hc. injection Hfb as Hhead _. contradiction.
  - intros ->. reflexivity.
Qed.

Lemma hindi_observation_loop toLowerCase (us : list Hindi.Utterance) :
  forall index st,
    Hindi.hasObjections
      (forEach (Hindi.observation_step toLowerCase) us index st) =
    Hindi.hasObjections st || existsb (has_objection toLowerCase) us.
Proof.
  induction us as [|u rest IH]; intros index st.
  - simpl. rewrite orb_false_r. reflexivity.
  - cbn [forEach existsb]. rewrite IH.
    unfold Hindi.observation_step, has_objection.
    destruct (some_keyword Hindi.objectionKeywords _);
    destruct (some_keyword Hindi.rebuttalKeywords _);
    cbn [Hindi.hasObjections orb];
    rewrite ?orb_true_r; reflexivity.
Qed.

Lemma hindi_objection_clause_cases toLowerCase (us : list Hindi.Utterance) :
  (existsb (has_objection toLowerCase) us = false /\
   Hindi.objection_clause toLowerCase us = []) \/
  (existsb (has_objection toLowerCase) us = true /\
   exists c, Hindi.objection_clause toLowerCase us = [c] /\ clause_text c).
Proof.
  unfold Hindi.objection_clause.
  rewrite hindi_observation_loop. cbn [Hindi.hasObjections orb].
  destruct (existsb (has_objection toLowerCase) us); [right | left; auto].
  split; [reflexivity|].
  destruct (_ >? 0); destruct (Hindi.hasRebuttals _);
    eexists; (split; [reflexivity | cbn; discriminate]).
Qed.

Lemma sort_insert_length {A : Type} (cmp : A -> A -> comparison) (x : A) xs :
  List.length (sort_insert cmp x xs) = S (List.length xs).
Proof.
  induction xs as [|y rest IH]; [reflexivity|].
  cbn [sort_insert]. destruct (cmp x y); cbn [List.length];
    rewrite ?IH; reflexivity.
Qed.

Lemma sort_length {A : Type} (cmp : A -> A -> comparison) (xs : list A) :
  List.length (sort cmp xs) = List.length xs.
Proof.
  unfold sort. induction xs as [|x rest IH]; [reflexivity|].
  cbn [fold_right]. rewrite sort_insert_length, IH. reflexivity.
Qed.

Lemma hindi_topic_clause_cases (topics : list Hindi.Topic) (s : Hindi.Sentiment) :
  (topics = [] /\ Hindi.topic_clause topics s = []) \/
  (topics <> [] /\
   exists c, Hindi.topic_clause topics s = [c] /\ clause_text c).
Proof.
  destruct topics as [|t rest]; [left; split; reflexivity | right].
  split; [discriminate|].
  unfold Hindi.topic_clause. rewrite length_gtb_cons.
  remember (sort _ (t :: rest)) as sorted eqn:Hsorted.
  assert (Hlen : List.length sorted = S (List.length rest))
    by (rewrite Hsorted, sort_length; reflexivity).
  destruct sorted as [|m sorted']; [discriminate|].
  cbn [firstn map]. rewrite length_gtb_cons.
  destruct (num_gt _ double_0_3); [|destruct (num_lt _ (- double_0_3))];
    eexists; (split; [reflexivity | cbn; discriminate]).
Qed.

(** C8, as the code has it. The English [generateObservation] returns the
    fallback text exactly when there is no topic and the call-level sentiment
    is the number [0]. The Hindi [generateObservation] returns it exactly when
    there is no topic and no utterance-based clause fires: no objection term,
    a disclosure term and an identification term in some utterance, and a
    closing term in the last utterance; the sentiment plays no part then. *)
Theorem C8_observation_fallback (toLowerCase : string -> string) :
  (forall us topics s,
     English.generateObservation us topics s = fallback_observation <->
     topics = [] /\ num_nonzero (English.overall s) = false) /\
  (forall us topics s,
     Hindi.generateObservation toLowerCase us topics s = fallback_observation <->
     topics = [] /\ hindi_no_utterance_clause toLowerCase us = true) /\
  fallback_observation = "No specific observations available.".
Proof.
  split; [|split; [|reflexivity]].
  - intros us topics s. unfold English.generateObservation.
    destruct topics as [|t rest].
    + destruct (num_nonzero (English.overall s)).
      * cbn. destruct (num_gt _ 0); cbn; split;
          [discriminate | intros [_ H]; discriminate H
          |discriminate | intros [_ H]; discriminate H].
      * cbn. split; auto.
    + rewrite length_gtb_cons.
      destruct (num_nonzero (English.overall s)); cbn;
        (split; [discriminate | intros [H _]; discriminate H]).
  - intros us topics s.
    unfold Hindi.generateObservation, hindi_no_utterance_clause.
    rewrite item_last. cbv zeta.
    generalize (existsb (fun u =>
      some_keyword Hindi.disclosureKeywords (toLowerCase (Hindi.transcript u))) us).
    generalize (existsb (fun u =>
      some_keyword Hindi.idKeywords (toLowerCase (Hindi.transcript u))) us).
    generalize (match lastOf us with
                | Some u =>
                    some_keyword Hindi.closingKeywords
                      (toLowerCase (Hindi.transcript u))
                | None => false
                end).
    intros hasProperClosing hasIdentification hasDisclosure.
    destruct (hindi_objection_clause_cases toLowerCase us)
      as [[Hobj ->]|[Hobj [c [-> Hc]]]];
    destruct (hindi_topic_clause_cases topics s)
      as [[Htop ->]|[Htop [d [-> Hd]]]];
    rewrite Hobj;
    destruct hasDisclosure, hasIdentification, hasProperClosing;
    (rewrite fallback_iff_no_clause
       by (cbn; repeat constructor; try assumption; discriminate));
    cbn; split;
    solve [ discriminate | intros [? ?]; discriminate
          | intros [? ?]; contradiction
          | intros _; split; [assumption | reflexivity]
          | intros; split; reflexivity ].
Qed.

(** C8 as stated fails on the Hindi handler: with no utterance, no topic and
    a neutral call the three missing-item clauses fire. *)
Lemma C8_hindi_observation_on_silent_call :
  Hindi.generateObservation asciiLowerCase [] [] (hindi_sentiment 0) =
    "Agent missed tape disclosure. Customer identification was not properly verified. Call ended without proper closing" /\
  Hindi.generateObservation asciiLowerCase [] [] (hindi_sentiment 0) <>
    "No specific observations available.".
Proof. split; [reflexivity | vm_compute; discriminate]. Qed.

(** C8 on two calls without topics and with sentiment [0]: the English
    handler gives the fallback, and so does the Hindi one when disclosure,
    identification and closing are all present. *)
Lemma C8_observation_fallback_witness :
  English.generateObservation [en "Hello" 1] [] (english_sentiment 0) =
    "No specific observations available." /\
  Hindi.generateObservation asciiLowerCase
    [hi "नमस्ते, यह कॉल रिकॉर्ड हो रहा है" 1; hi "आपका नाम बताइए" 6;
     hi "धन्यवाद" 40]
    [] (hindi_sentiment 0) = "No specific observations available.".
Proof.
  split.
  - apply (proj1 (C8_observation_fallback asciiLowerCase)). split; reflexivity.
  - apply (proj1 (proj2 (C8_observation_fallback asciiLowerCase))).
    split; reflexivity.
Defined.

(** ** Disclaimer and tape disclosure *)

(** C9. In both handlers [analyzeDisclaimer] returns [5] if and only if
    [analyzeTapeDisclosure] returns [10]: the two read the same lexicon under
    the same time condition. *)
Theorem C9_disclaimer_iff_tape_disclosure (toLowerCase : string -> string) :
  (forall us,
     Hindi.analyzeDisclaimer toLowerCase us = 5 <->
     Hindi.analyzeTapeDisclosure toLowerCase us = 10) /\
  (forall us,
     English.analyzeDisclaimer toLowerCase us = 5 <->
     English.analyzeTapeDisclosure toLowerCase us = 10) /\
  Hindi.disclaimerKeywords = Hindi.disclosureKeywords /\
  English.disclaimerKeywords = English.disclosureKeywords.
Proof.
  repeat split; try reflexivity.
  - unfold Hindi.analyzeDisclaimer, Hindi.analyzeTapeDisclosure.
    change Hindi.disclaimerKeywords with Hindi.disclosureKeywords.
    destruct (existsb _ us); [reflexivity | discriminate].
  - unfold Hindi.analyzeDisclaimer, Hindi.analyzeTapeDisclosure.
    change Hindi.disclaimerKeywords with Hindi.disclosureKeywords.
    destruct (existsb _ us); [reflexivity | discriminate].
  - unfold English.analyzeDisclaimer, English.analyzeTapeDisclosure.
    change English.disclaimerKeywords with English.disclosureKeywords.
    destruct (existsb _ us); [reflexivity | discriminate].
  - unfold English.analyzeDisclaimer, English.analyzeTapeDisclosure.
    change English.disclaimerKeywords with English.disclosureKeywords.
    destruct (existsb _ us); [reflexivity | discriminate].
Qed.

(** ** Call etiquette *)

Lemma num_gt_same (x y : number) (c : Q) :
  same_number x y -> num_gt x c = num_gt y c.
Proof.
  destruct x as [| |p|], y as [| |q|]; cbn; try contradiction; try reflexivity.
  intro Hpq. f_equal.
  destruct (Qle_bool p c) eqn:Hp, (Qle_bool q c) eqn:Hq; try reflexivity.
  - apply Qle_bool_iff in Hp. rewrite Hpq in Hp.
    apply Qle_bool_iff in Hp. congruence.
  - apply Qle_bool_iff in Hq. rewrite <- Hpq in Hq.
    apply Qle_bool_iff in Hq. congruence.
Qed.

(** C10. The Call Etiquette score the analysis step returns is a function of
    the call-level sentiment score alone: two transcripts whose call-level
    sentiment scores are the same number get the same [callEtiquette] value,
    whatever their utterances, sentiment labels and intents; in both
    handlers. *)
Theorem C10_etiquette_depends_on_sentiment_only (toLowerCase : string -> string) :
  (forall us1 us2 s1 s2 intents1 intents2,
     same_number (Hindi.sentiment_score s1) (Hindi.sentiment_score s2) ->
     exists v,
       score_of (Hindi.POST_scores toLowerCase us1 s1 intents1) "callEtiquette"
         = Some v /\
       score_of (Hindi.POST_scores toLowerCase us2 s2 intents2) "callEtiquette"
         = Some v /\
       Hindi.analyzeEtiquette s1 = v /\ Hindi.analyzeEtiquette s2 = v) /\
  (forall us1 us2 s1 s2 intents1 intents2,
     same_number (English.overall s1) (English.overall s2) ->
     exists v,
       score_of (English.POST_scores toLowerCase us1 s1 intents1) "callEtiquette"
         = Some v /\
       score_of (English.POST_scores toLowerCase us2 s2 intents2) "callEtiquette"
         = Some v /\
       English.analyzeEtiquette s1 = v /\ English.analyzeEtiquette s2 = v).
Proof.
  split; intros us1 us2 s1 s2 intents1 intents2 Hsame.
  - exists (Hindi.analyzeEtiquette s1).
    rewrite !hindi_POST_scores_returns.
    assert (Heq : Hindi.analyzeEtiquette s2 = Hindi.analyzeEtiquette s1).
    { unfold Hindi.analyzeEtiquette.
      rewrite !(num_gt_same _ _ _ Hsame). reflexivity. }
    repeat split; [cbn; f_equal; exact Heq | exact Heq].
  - exists (English.analyzeEtiquette s1).
    rewrite !english_POST_scores_returns.
    assert (Heq : English.analyzeEtiquette s2 = English.analyzeEtiquette s1).
    { unfold English.analyzeEtiquette.
      rewrite !(num_gt_same _ _ _ Hsame). reflexivity. }
    repeat split; [cbn; f_equal; exact Heq | exact Heq].
Qed.

(** C10 on two pairs of calls that share nothing but the value of the
    call-level sentiment score. *)
Lemma C10_etiquette_witness :
  (exists v,
     score_of (Hindi.POST_scores asciiLowerCase
                 [hi "नमस्ते" 1; hi "नहीं होगा" 9]
                 {| Hindi.sentiment := "positive";
                    Hindi.sentiment_score := Finite 0.5 |}
                 []) "callEtiquette" = Some v /\
     score_of (Hindi.POST_scores asciiLowerCase []
                 {| Hindi.sentiment := "neutral";
                    Hindi.sentiment_score := Finite (2 # 4) |}
                 [{| Hindi.intent := "category";
                     Hindi.confidence := Finite 0.75 |}]) "callEtiquette"
       = Some v /\
     v = 15) /\
  (exists v,
     score_of (English.POST_scores asciiLowerCase [en "You are rude" 2]
                 (english_sentiment 0.5) []) "callEtiquette" = Some v /\
     score_of (English.POST_scores asciiLowerCase [] (english_sentiment (2 # 4))
                 []) "callEtiquette" = Some v /\
     v = 14).
Proof.
  split.
  - destruct (proj1 (C10_etiquette_depends_on_sentiment_only asciiLowerCase)
      [hi "नमस्ते" 1; hi "नहीं होगा" 9] []
      {| Hindi.sentiment := "positive"; Hindi.sentiment_score := Finite 0.5 |}
      {| Hindi.sentiment := "neutral"; Hindi.sentiment_score := Finite (2 # 4) |}
      [] [{| Hindi.intent := "category"; Hindi.confidence := Finite 0.75 |}])
      as [v [H1 [H2 [H3 _]]]]; [reflexivity|].
    exists v. repeat split; [exact H1 | exact H2 | rewrite <- H3; reflexivity].
  - destruct (proj2 (C10_etiquette_depends_on_sentiment_only asciiLowerCase)
      [en "You are rude" 2] [] (english_sentiment 0.5)
      (english_sentiment (2 # 4)) [] [])
      as [v [H1 [H2 [H3 _]]]]; [reflexivity|].
    exists v. repeat split; [exact H1 | exact H2 | rewrite <- H3; reflexivity].
Defined.

(** * Further properties of the handlers *)

(** ** Sums and counts over the utterances *)

Lemma hits_cons {A : Type} (test : A -> bool) (x : A) (xs : list A) :
  hits test (x :: xs) = (if test x then 1 else 0) + hits test xs.
Proof.
  unfold hits. cbn [filter]. destruct (test x); cbn [List.length]; lia.
Qed.

Lemma hits_nonneg {A : Type} (test : A -> bool) (xs : list A) :
  0 <= hits test xs.
Proof. unfold hits. lia. Qed.

Lemma hits_app {A : Type} (test : A -> bool) (xs ys : list A) :
  hits test (xs ++ ys)%list = hits test xs + hits test ys.
Proof.
  induction xs as [|x rest IH]; [unfold hits; simpl; lia|].
  cbn [app]. rewrite !hits_cons, IH. lia.
Qed.

Lemma hits_permutation {A : Type} (test : A -> bool) (xs ys : list A) :
  Permutation xs ys -> hits test xs = hits test ys.
Proof.
  induction 1 as [|x xs ys _ IH|x y xs|xs ys zs _ IH1 _ IH2].
  - reflexivity.
  - rewrite !hits_cons, IH. reflexivity.
  - rewrite !hits_cons. lia.
  - rewrite IH1. exact IH2.
Qed.

(** A loop that adds a per-element amount computes the initial value plus
    the sum of the amounts. *)
Lemma fold_left_adds {A : Type} (step : Z -> A -> Z) (amount : A -> Z)
    (xs : list A) :
  (forall score x, step score x = score + amount x) ->
  forall acc,
    fold_left step xs acc = acc + fold_right Z.add 0 (map amount xs).
Proof.
  intros Hstep. induction xs as [|x rest IH]; intro acc; cbn; [lia|].
  rewrite IH, Hstep. lia.
Qed.

Lemma sum_permutation (xs ys : list Z) :
  Permutation xs ys -> fold_right Z.add 0 xs = fold_right Z.add 0 ys.
Proof.
  induction 1 as [|x xs ys _ IH|x y xs|xs ys zs _ IH1 _ IH2]; cbn; lia.
Qed.

Lemma sum_app (xs ys : list Z) :
  fold_right Z.add 0 (xs ++ ys)%list =
  fold_right Z.add 0 xs + fold_right Z.add 0 ys.
Proof. induction xs as [|x rest IH]; cbn; lia. Qed.

Lemma sum_bounds (lo hi : Z) (xs : list Z) :
  Forall (fun x => lo <= x <= hi) xs ->
  lo * Z.of_nat (List.length xs) <= fold_right Z.add 0 xs
    <= hi * Z.of_nat (List.length xs).
Proof.
  induction 1 as [|x rest Hx _ IH]; [cbn; lia|].
  cbn [fold_right List.length]. lia.
Qed.

(** ** Rebuttal scoring by counts *)

(** The arithmetic of the Hindi [analyzeRebuttal] on the two counters. *)
Lemma hindi_rebuttal_formula (toLowerCase : string -> string)
    (us : list Hindi.Utterance) :
  let o := hits (has_objection toLowerCase) us in
  let r := hits (rebuttal_without_objection toLowerCase) us in
  Hindi.analyzeRebuttal toLowerCase us =
    if o =? 0 then 0
    else if 2 * o + 3 * r <=? 15 then Z.min 15 (5 * r)
    else Z.min 15 (Z.max 0 (15 - 2 * o + 2 * r)).
Proof.
  cbv zeta. unfold Hindi.analyzeRebuttal.
  destruct (hindi_rebuttal_counters toLowerCase us) as [Ho Hr].
  rewrite Ho, Hr. fold (hits (has_objection toLowerCase) us).
  fold (hits (rebuttal_without_objection toLowerCase) us).
  clear Ho Hr.
  set (o := hits (has_objection toLowerCase) us).
  set (r := hits (rebuttal_without_objection toLowerCase) us).
  assert (Ho0 : 0 <= o) by apply hits_nonneg.
  assert (Hr0 : 0 <= r) by apply hits_nonneg.
  clearbody o r.
  destruct (Z.eqb_spec o 0) as [->|Hne]; [reflexivity|].
  replace (o >? 0) with true by (symmetry; apply Z.gtb_lt; lia).
  destruct (Z.leb_spec (2 * o + 3 * r) 15); lia.
Qed.

(** X1. The Hindi rebuttal score is a function of two counts only: [o], the
    utterances with an objection hit, and [r], the utterances with a
    rebuttal hit and no objection hit. It is [0] without objections,
    [min 15 (5 r)] while [2 o + 3 r <= 15], and [15 - 2 o + 2 r] clamped to
    [[0, 15]] beyond. *)
Theorem X1_hindi_rebuttal_by_counts (toLowerCase : string -> string)
    (us : list Hindi.Utterance) :
  let o := hits (has_objection toLowerCase) us in
  let r := hits (rebuttal_without_objection toLowerCase) us in
  Hindi.analyzeRebuttal toLowerCase us =
    if o =? 0 then 0
    else if 2 * o + 3 * r <=? 15 then Z.min 15 (5 * r)
    else Z.min 15 (Z.max 0 (15 - 2 * o + 2 * r)).
Proof. exact (hindi_rebuttal_formula toLowerCase us). Qed.

(** X2. Reordering the utterances of a call does not change the Hindi
    rebuttal score. *)
Theorem X2_hindi_rebuttal_order_irrelevant (toLowerCase : string -> string)
    (us vs : list Hindi.Utterance) :
  Permutation us vs ->
  Hindi.analyzeRebuttal toLowerCase us = Hindi.analyzeRebuttal toLowerCase vs.
Proof.
  intro Hperm. rewrite !hindi_rebuttal_formula. cbv zeta.
  rewrite (hits_permutation (has_objection toLowerCase) us vs Hperm).
  rewrite (hits_permutation (rebuttal_without_objection toLowerCase) us vs Hperm).
  reflexivity.
Qed.

Lemma X2_hindi_rebuttal_order_witness :
  Hindi.analyzeRebuttal asciiLowerCase [hi "नहीं होगा" 3; hi "लेकिन सुनिए" 9] =
  Hindi.analyzeRebuttal asciiLowerCase [hi "लेकिन सुनिए" 9; hi "नहीं होगा" 3].
Proof.
  apply (X2_hindi_rebuttal_order_irrelevant asciiLowerCase).
  apply perm_swap.
Defined.

(** X3. Objections that are never followed up score nothing: when no
    utterance has a rebuttal hit free of an objection hit, the Hindi rebuttal
    score is [0] however many objections there are. *)
Theorem X3_hindi_objections_alone_score_zero
    (toLowerCase : string -> string) (us : list Hindi.Utterance) :
  existsb (rebuttal_without_objection toLowerCase) us = false ->
  Hindi.analyzeRebuttal toLowerCase us = 0.
Proof.
  intro Hnone. rewrite hindi_rebuttal_formula. cbv zeta.
  assert (Hr : hits (rebuttal_without_objection toLowerCase) us = 0).
  { induction us as [|u rest IH]; [reflexivity|].
    cbn [existsb] in Hnone. apply orb_false_iff in Hnone as [Hu Hrest].
    rewrite hits_cons, Hu, IH by exact Hrest. reflexivity. }
  rewrite Hr.
  pose proof (hits_nonneg (has_objection toLowerCase) us) as Ho.
  destruct (Z.eqb_spec (hits (has_objection toLowerCase) us) 0); [reflexivity|].
  destruct (Z.leb_spec (2 * hits (has_objection toLowerCase) us + 3 * 0) 15); lia.
Qed.

Lemma X3_hindi_objections_alone_witness :
  Hindi.analyzeRebuttal asciiLowerCase
    [hi "नहीं होगा" 3; hi "बहुत महंगा है" 9; hi "समस्या है लेकिन" 15] = 0.
Proof.
  apply (X3_hindi_objections_alone_score_zero asciiLowerCase).
  reflexivity.
Defined.

(** ** Urgency scoring *)

(** The Hindi [analyzeUrgency] sums a per-utterance amount between [0] and
    [4], takes [2] off and clamps. *)
Lemma hindi_urgency_sum (toLowerCase : string -> string) :
  exists amount : Hindi.Utterance -> Z,
    (forall u, 0 <= amount u <= 4) /\
    forall us,
      Hindi.analyzeUrgency toLowerCase us =
      Z.min 15 (Z.max 0 (fold_right Z.add 0 (map amount us) - 2)).
Proof.
  exists (fun u =>
    let text := toLowerCase (Hindi.transcript u) in
    (if some_keyword Hindi.urgencyKeywords text then 2 else 0) +
    (if includes text "?" &&
        (includes text "कब" || includes text "क्यों" || includes text "कैसे")
     then 1 else 0) +
    (if includes text "आज" || includes text "कल" || includes text "इस हफ्ते" ||
        includes text "इस महीने"
     then 1 else 0)).
  split.
  - intro u. cbv zeta.
    destruct (some_keyword _ _); destruct (_ && _); destruct (_ || _); lia.
  - intro us. unfold Hindi.analyzeUrgency.
    rewrite fold_left_adds with (amount := fun u =>
      let text := toLowerCase (Hindi.transcript u) in
      (if some_keyword Hindi.urgencyKeywords text then 2 else 0) +
      (if includes text "?" &&
          (includes text "कब" || includes text "क्यों" || includes text "कैसे")
       then 1 else 0) +
      (if includes text "आज" || includes text "कल" || includes text "इस हफ्ते" ||
          includes text "इस महीने"
       then 1 else 0)).
    + reflexivity.
    + intros score u. cbv zeta. lia.
Qed.

(** X4. An utterance adds at most [4] urgency points and [2] points are
    taken off the total, so the Hindi urgency score of a call of [n]
    utterances is at most [4 n - 2] (and never negative): one utterance earns
    at most [2], and the full [15] needs five utterances. *)
Theorem X4_hindi_urgency_length_bound (toLowerCase : string -> string)
    (us : list Hindi.Utterance) :
  Hindi.analyzeUrgency toLowerCase us
    <= Z.max 0 (4 * Z.of_nat (List.length us) - 2).
Proof.
  destruct (hindi_urgency_sum toLowerCase) as [amount [Hamount Hsum]].
  rewrite Hsum.
  pose proof (sum_bounds 0 4 (map amount us)) as Hb.
  rewrite length_map in Hb.
  assert (Hall : Forall (fun x => 0 <= x <= 4) (map amount us)).
  { apply Forall_forall. intros x Hx. apply in_map_iff in Hx as [u [<- _]].
    apply Hamount. }
  specialize (Hb Hall). lia.
Qed.

(** X5. Reordering the utterances of a call does not change the Hindi
    urgency score. *)
Theorem X5_hindi_urgency_order_irrelevant (toLowerCase : string -> string)
    (us vs : list Hindi.Utterance) :
  Permutation us vs ->
  Hindi.analyzeUrgency toLowerCase us = Hindi.analyzeUrgency toLowerCase vs.
Proof.
  intro Hperm.
  destruct (hindi_urgency_sum toLowerCase) as [amount [_ Hsum]].
  rewrite !Hsum.
  rewrite (sum_permutation (map amount us) (map amount vs)); [reflexivity|].
  apply Permutation_map, Hperm.
Qed.

Lemma X5_hindi_urgency_order_witness :
  Hindi.analyzeUrgency asciiLowerCase
    [hi "यह जरूरी है" 3; hi "आज कब करेंगे?" 9; hi "ठीक है" 15] =
  Hindi.analyzeUrgency asciiLowerCase
    [hi "ठीक है" 15; hi "यह जरूरी है" 3; hi "आज कब करेंगे?" 9].
Proof.
  apply (X5_hindi_urgency_order_irrelevant asciiLowerCase).
  apply Permutation_sym.
  apply (Permutation_cons_app [hi "यह जरूरी है" 3; hi "आज कब करेंगे?" 9] []).
  rewrite app_nil_r. apply Permutation_refl.
Defined.

(** X6. Adding utterances to a call, anywhere, never lowers the Hindi
    urgency score. *)
Theorem X6_hindi_urgency_monotone (toLowerCase : string -> string)
    (before inserted after : list Hindi.Utterance) :
  Hindi.analyzeUrgency toLowerCase (before ++ after)%list
    <= Hindi.analyzeUrgency toLowerCase (before ++ inserted ++ after)%list.
Proof.
  destruct (hindi_urgency_sum toLowerCase) as [amount [Hamount Hsum]].
  rewrite !Hsum, !map_app, !sum_app.
  pose proof (sum_bounds 0 4 (map amount inserted)) as Hb.
  assert (Hall : Forall (fun x => 0 <= x <= 4) (map amount inserted)).
  { apply Forall_forall. intros x Hx. apply in_map_iff in Hx as [u [<- _]].
    apply Hamount. }
  specialize (Hb Hall). lia.
Qed.

(** The English [analyzeUrgency] and [analyzeRebuttal] both add [3] per
    utterance that passes a test. *)
Lemma fold_left_three_per_hit {A : Type} (test : A -> bool) (xs : list A) :
  fold_left (fun score x => score + (if test x then 3 else 0)) xs 0 =
  3 * hits test xs.
Proof.
  rewrite fold_left_adds with (amount := fun x => if test x then 3 else 0)
    by reflexivity.
  induction xs as [|x rest IH]; [reflexivity|].
  cbn [map fold_right]. rewrite hits_cons. destruct (test x); lia.
Qed.

(** X7. The English urgency score is three points per utterance with an
    urgency term, capped at [15]: terms repeated inside one utterance count
    once, and five such utterances reach the cap. *)
Theorem X7_english_urgency_by_count (toLowerCase : string -> string)
    (us : list English.Utterance) :
  English.analyzeUrgency toLowerCase us =
  Z.min 15 (3 * hits (english_has_urgency toLowerCase) us).
Proof.
  unfold English.analyzeUrgency.
  rewrite <- (fold_left_three_per_hit (english_has_urgency toLowerCase) us).
  reflexivity.
Qed.

(** X8. The English rebuttal score reads the objection lexicon only: it is
    three points per utterance with an objection term, capped at [15], so it
    never decreases when an utterance is added and it grows with the number
    of objections. *)
Theorem X8_english_rebuttal_counts_objections (toLowerCase : string -> string)
    (us extra : list English.Utterance) :
  English.analyzeRebuttal toLowerCase us =
    Z.min 15 (3 * hits (english_has_objection toLowerCase) us) /\
  English.analyzeRebuttal toLowerCase us
    <= English.analyzeRebuttal toLowerCase (us ++ extra)%list.
Proof.
  assert (Hform : forall xs,
    English.analyzeRebuttal toLowerCase xs =
    Z.min 15 (3 * hits (english_has_objection toLowerCase) xs)).
  { intro xs. unfold English.analyzeRebuttal.
    rewrite <- (fold_left_three_per_hit (english_has_objection toLowerCase) xs).
    reflexivity. }
  split; [apply Hform|].
  rewrite !Hform, hits_app.
  pose proof (hits_nonneg (english_has_objection toLowerCase) extra). lia.
Qed.

(** ** Sentiment-driven scores *)

Lemma num_gt_monotone (p q c : Q) :
  (p <= q)%Q -> num_gt (Finite p) c = true -> num_gt (Finite q) c = true.
Proof.
  cbn. intros Hpq Hp. apply negb_true_iff in Hp. apply negb_true_iff.
  destruct (Qle_bool q c) eqn:Hq; [|reflexivity].
  apply Qle_bool_iff in Hq.
  assert (Hpc : (p <= c)%Q) by (eapply Qle_trans; eassumption).
  apply Qle_bool_iff in Hpc. congruence.
Qed.

Lemma num_lt_antitone (p q c : Q) :
  (p <= q)%Q -> num_lt (Finite q) c = true -> num_lt (Finite p) c = true.
Proof.
  cbn. intros Hpq Hq. apply negb_true_iff in Hq. apply negb_true_iff.
  destruct (Qle_bool c p) eqn:Hp; [|reflexivity].
  apply Qle_bool_iff in Hp.
  assert (Hcq : (c <= q)%Q) by (eapply Qle_trans; eassumption).
  apply Qle_bool_iff in Hcq. congruence.
Qed.

(** X9. Call etiquette never drops when the call-level sentiment score
    rises, in either handler. *)
Theorem X9_etiquette_monotone (p q : Q) (label1 label2 : string) :
  (p <= q)%Q ->
  Hindi.analyzeEtiquette
    {| Hindi.sentiment := label1; Hindi.sentiment_score := Finite p |}
  <= Hindi.analyzeEtiquette
       {| Hindi.sentiment := label2; Hindi.sentiment_score := Finite q |} /\
  English.analyzeEtiquette (english_sentiment p)
  <= English.analyzeEtiquette (english_sentiment q).
Proof.
  intro Hpq.
  unfold Hindi.analyzeEtiquette, English.analyzeEtiquette, english_sentiment.
  cbn [Hindi.sentiment_score English.overall].
  pose proof (num_gt_monotone p q double_0_3 Hpq) as H3.
  pose proof (num_gt_monotone p q 0 Hpq) as H0.
  pose proof (num_gt_monotone p q (- double_0_3) Hpq) as Hm.
  destruct (num_gt (Finite p) double_0_3), (num_gt (Finite p) 0),
    (num_gt (Finite p) (- double_0_3));
  try rewrite (H3 eq_refl); try rewrite (H0 eq_refl); try rewrite (Hm eq_refl);
  destruct (num_gt (Finite q) double_0_3), (num_gt (Finite q) 0),
    (num_gt (Finite q) (- double_0_3)); lia.
Qed.

Lemma X9_etiquette_monotone_witness :
  Hindi.analyzeEtiquette
    {| Hindi.sentiment := "negative"; Hindi.sentiment_score := Finite (-0.5) |}
  <= Hindi.analyzeEtiquette
       {| Hindi.sentiment := "positive"; Hindi.sentiment_score := Finite 0.25 |} /\
  English.analyzeEtiquette (english_sentiment (-0.5))
  <= English.analyzeEtiquette (english_sentiment 0.25).
Proof.
  apply (X9_etiquette_monotone (-0.5) 0.25 "negative" "positive").
  discriminate.
Defined.

(** X10. For the same utterances the Hindi Tone & Language score never
    drops when the call-level sentiment score rises. *)
Theorem X10_hindi_tone_monotone (toLowerCase : string -> string)
    (us : list Hindi.Utterance) (p q : Q) :
  (p <= q)%Q ->
  Hindi.analyzeToneLanguage toLowerCase (hindi_sentiment p) us
  <= Hindi.analyzeToneLanguage toLowerCase (hindi_sentiment q) us.
Proof.
  intro Hpq. unfold Hindi.analyzeToneLanguage, hindi_sentiment.
  cbn [Hindi.sentiment_score].
  destruct (existsb _ us); [cbn; lia|]. cbn [orb].
  pose proof (num_lt_antitone p q (- double_0_3) Hpq) as H3.
  pose proof (num_lt_antitone p q (- double_0_1) Hpq) as Hm.
  pose proof (num_lt_antitone p q double_0_1 Hpq) as H1.
  destruct (num_lt (Finite q) (- double_0_3)), (num_lt (Finite q) (- double_0_1)),
    (num_lt (Finite q) double_0_1);
  try rewrite (H3 eq_refl); try rewrite (Hm eq_refl); try rewrite (H1 eq_refl);
  destruct (num_lt (Finite p) (- double_0_3)), (num_lt (Finite p) (- double_0_1)),
    (num_lt (Finite p) double_0_1); lia.
Qed.

Lemma X10_hindi_tone_monotone_witness :
  Hindi.analyzeToneLanguage asciiLowerCase (hindi_sentiment (-0.25))
    [hi "नमस्ते" 1]
  <= Hindi.analyzeToneLanguage asciiLowerCase (hindi_sentiment 0.5)
       [hi "नमस्ते" 1].
Proof.
  apply (X10_hindi_tone_monotone asciiLowerCase [hi "नमस्ते" 1] (-0.25) 0.5).
  discriminate.
Defined.

(** ** Disposition *)

(** X11. In the Hindi handler the word for reason is both a disposition
    keyword and a causal connective: any utterance whose lower-cased text
    contains it earns the full [10], without any other disposition term. *)
Theorem X11_hindi_reason_word_earns_full_disposition
    (toLowerCase : string -> string) (us : list Hindi.Utterance)
    (intents : list Hindi.Intent) :
  Exists (fun u =>
    includes (toLowerCase (Hindi.transcript u)) "कारण" = true) us ->
  Hindi.analyzeDisposition toLowerCase us intents = 10.
Proof.
  intro Hex. apply Exists_exists in Hex as [u [Hin Hu]].
  unfold Hindi.analyzeDisposition.
  match goal with
  | |- (if existsb ?f us then _ else _) = _ =>
      replace (existsb f us) with true; [reflexivity|]
  end.
  symmetry. apply existsb_exists. exists u. split; [exact Hin|].
  cbv zeta. unfold some_keyword, Hindi.dispositionKeywords. cbn [existsb].
  rewrite Hu. rewrite !orb_true_r. reflexivity.
Qed.

Lemma X11_hindi_reason_word_witness :
  Hindi.analyzeDisposition asciiLowerCase
    [hi "नमस्ते" 1; hi "देरी का कारण बताइए" 12] [] = 10.
Proof.
  apply (X11_hindi_reason_word_earns_full_disposition asciiLowerCase).
  apply Exists_cons_tl, Exists_cons_hd. reflexivity.
Defined.

(** X12. In the Hindi handler intent labels alone earn half the weight at
    most: when no utterance has a disposition keyword the score is [5] if
    some lower-cased intent label contains [disposition] or [category], and
    [0] otherwise. *)
Theorem X12_hindi_intents_earn_half (toLowerCase : string -> string)
    (us : list Hindi.Utterance) (intents : list Hindi.Intent) :
  existsb (fun u =>
    some_keyword Hindi.dispositionKeywords
      (toLowerCase (Hindi.transcript u))) us = false ->
  Hindi.analyzeDisposition toLowerCase us intents =
    if existsb (fun i =>
         includes (toLowerCase (Hindi.intent i)) "disposition" ||
         includes (toLowerCase (Hindi.intent i)) "category") intents
    then 5 else 0.
Proof.
  intro Hnone. unfold Hindi.analyzeDisposition. cbv zeta.
  rewrite Hnone. cbn [orb].
  match goal with
  | |- (if existsb ?f us then _ else _) = _ =>
      replace (existsb f us) with false; [reflexivity|]
  end.
  symmetry. apply not_true_is_false. intro Hsome.
  apply existsb_exists in Hsome as [u [Hin Hu]].
  apply andb_true_iff in Hu as [Hkey _].
  assert (Hall : existsb (fun u =>
    some_keyword Hindi.dispositionKeywords
      (toLowerCase (Hindi.transcript u))) us = true).
  { apply existsb_exists. exists u. split; assumption. }
  congruence.
Qed.

Lemma X12_hindi_intents_earn_half_witness :
  Hindi.analyzeDisposition asciiLowerCase [hi "नमस्ते" 1]
    [{| Hindi.intent := "Set Disposition"; Hindi.confidence := Finite 0.75 |}] = 5.
Proof.
  apply (X12_hindi_intents_earn_half asciiLowerCase [hi "नमस्ते" 1]
    [{| Hindi.intent := "Set Disposition"; Hindi.confidence := Finite 0.75 |}]).
  reflexivity.
Defined.

(** ** Totals *)

Ltac bound_by H := simpl In in H; lia.

Lemma hindi_score_bounds toLowerCase us s intents :
  0 <= greeting_rule hindi_greeting_profile toLowerCase
         (option_map (fun u => (Hindi.transcript u, Hindi.start u))
            (hd_error us)) <= 5 /\
  1 <= Hindi.analyzeEtiquette s <= 15 /\
  0 <= Hindi.analyzeDisclaimer toLowerCase us <= 5 /\
  0 <= Hindi.analyzeDisposition toLowerCase us intents <= 10 /\
  0 <= closing_rule hindi_gratitude_terms toLowerCase
         (option_map Hindi.transcript (lastOf us)) <= 5 /\
  0 <= Hindi.analyzeIdentification toLowerCase us <= 5 /\
  0 <= Hindi.analyzeTapeDisclosure toLowerCase us <= 10 /\
  0 <= Hindi.analyzeToneLanguage toLowerCase s us <= 15.
Proof.
  repeat split.
  all: try (destruct (greeting_rule_values hindi_greeting_profile toLowerCase
         (option_map (fun u => (Hindi.transcript u, Hindi.start u))
            (hd_error us))) as [H|H]; rewrite H; lia).
  all: try (destruct (closing_rule_values hindi_gratitude_terms toLowerCase
         (option_map Hindi.transcript (lastOf us))) as [H|H]; rewrite H; lia).
  all: first
    [ pose proof (hindi_etiquette_values s) as H; bound_by H
    | pose proof (hindi_disclaimer_values toLowerCase us) as H; bound_by H
    | pose proof (hindi_disposition_values toLowerCase us intents) as H;
      bound_by H
    | pose proof (hindi_identification_values toLowerCase us) as H; bound_by H
    | pose proof (hindi_tape_values toLowerCase us) as H; bound_by H
    | pose proof (hindi_tone_values toLowerCase us s) as H; bound_by H ].
Qed.

Lemma english_score_bounds toLowerCase us s intents :
  0 <= greeting_rule english_greeting_profile toLowerCase
         (option_map (fun u => (English.transcript u, English.start u))
            (hd_error us)) <= 5 /\
  10 <= English.analyzeEtiquette s <= 14 /\
  0 <= English.analyzeDisclaimer toLowerCase us <= 5 /\
  0 <= English.analyzeDisposition us intents <= 10 /\
  0 <= closing_rule English.closingKeywords toLowerCase
         (option_map English.transcript (lastOf us)) <= 5 /\
  0 <= English.analyzeIdentification toLowerCase us <= 5 /\
  0 <= English.analyzeTapeDisclosure toLowerCase us <= 10 /\
  0 <= English.analyzeToneLanguage toLowerCase s us <= 15.
Proof.
  repeat split.
  all: try (destruct (greeting_rule_values english_greeting_profile toLowerCase
         (option_map (fun u => (English.transcript u, English.start u))
            (hd_error us))) as [H|H]; rewrite H; lia).
  all: try (destruct (closing_rule_values English.closingKeywords toLowerCase
         (option_map English.transcript (lastOf us))) as [H|H]; rewrite H; lia).
  all: first
    [ pose proof (english_etiquette_values s) as H; bound_by H
    | pose proof (english_disclaimer_values toLowerCase us) as H; bound_by H
    | pose proof (english_disposition_values us intents) as H; bound_by H
    | pose proof (english_identification_values toLowerCase us) as H; bound_by H
    | pose proof (english_tape_values toLowerCase us) as H; bound_by H
    | pose proof (english_tone_values toLowerCase us s) as H; bound_by H ].
Qed.

(** X13. The scores of a call add up to between [1] and [100] in the Hindi
    handler, whose etiquette score is never [0], and to between [10] and
    [99] in the English handler, whose etiquette score is [10] or [14]: the
    English handler never awards the full [100]. *)
Theorem X13_total_score_bounds (toLowerCase : string -> string) :
  (forall us s intents,
     exists scores,
       Hindi.POST_scores toLowerCase us s intents = Returns scores /\
       1 <= total scores <= 100) /\
  (forall us s intents,
     exists scores,
       English.POST_scores toLowerCase us s intents = Returns scores /\
       10 <= total scores <= 99).
Proof.
  split; intros us s intents; eexists.
  - split; [apply hindi_POST_scores_returns|].
    unfold total. cbn [map snd fold_left].
    pose proof (hindi_score_bounds toLowerCase us s intents).
    pose proof (hindi_urgency_range toLowerCase us).
    pose proof (hindi_rebuttal_range toLowerCase us).
    lia.
  - split; [apply english_POST_scores_returns|].
    unfold total. cbn [map snd fold_left].
    pose proof (english_score_bounds toLowerCase us s intents).
    pose proof (english_urgency_range toLowerCase us).
    pose proof (english_rebuttal_range toLowerCase us).
    lia.
Qed.

(** ** The Hindi overall feedback *)

Lemma hindi_etiquette_high (s : Hindi.Sentiment) :
  (12 <=? Hindi.analyzeEtiquette s) =
  num_gt (Hindi.sentiment_score s) double_0_3.
Proof.
  unfold Hindi.analyzeEtiquette.
  destruct (num_gt _ double_0_3); [reflexivity|].
  destruct (num_gt _ 0); [reflexivity|].
  destruct (num_gt _ (- double_0_3)); reflexivity.
Qed.

(** X14. On the scores the Hindi handler computes, the overall feedback is
    the generic sentence exactly when no part fires: urgency and rebuttal
    below [12], a disclaimer and an identification found, and a call-level
    sentiment score neither above [0.3] nor below [-0.3]. The etiquette
    score adds no condition, being [12] or more only above [0.3], and the tape
    disclosure score is [0] exactly when the disclaimer score is. *)
Theorem X14_hindi_generic_feedback (toLowerCase : string -> string)
    (us : list Hindi.Utterance) (s : Hindi.Sentiment)
    (intents : list Hindi.Intent) :
  exists scores,
    Hindi.POST_scores toLowerCase us s intents = Returns scores /\
    (Hindi.generateOverallFeedback scores s = generic_feedback <->
     Hindi.analyzeUrgency toLowerCase us < 12 /\
     Hindi.analyzeRebuttal toLowerCase us < 12 /\
     Hindi.analyzeDisclaimer toLowerCase us = 5 /\
     Hindi.analyzeIdentification toLowerCase us = 5 /\
     num_gt (Hindi.sentiment_score s) double_0_3 = false /\
     num_lt (Hindi.sentiment_score s) (- double_0_3) = false).
Proof.
  eexists. split; [apply hindi_POST_scores_returns|].
  unfold Hindi.generateOverallFeedback.
  match goal with
  | |- context [get ?sc "collectionUrgency"] => set (scores := sc)
  end.
  replace (get scores "collectionUrgency")
    with (Some (Hindi.analyzeUrgency toLowerCase us)) by reflexivity.
  replace (get scores "rebuttalCustomerHandling")
    with (Some (Hindi.analyzeRebuttal toLowerCase us)) by reflexivity.
  replace (get scores "callEtiquette")
    with (Some (Hindi.analyzeEtiquette s)) by reflexivity.
  replace (get scores "callDisclaimer")
    with (Some (Hindi.analyzeDisclaimer toLowerCase us)) by reflexivity.
  replace (get scores "fatalTapeDiscloser")
    with (Some (Hindi.analyzeTapeDisclosure toLowerCase us)) by reflexivity.
  replace (get scores "fatalIdentification")
    with (Some (Hindi.analyzeIdentification toLowerCase us)) by reflexivity.
  clear scores. cbn [score_ge score_is_zero].
  rewrite hindi_etiquette_high.
  unfold Hindi.analyzeDisclaimer,
    Hindi.analyzeTapeDisclosure, Hindi.analyzeIdentification.
  change Hindi.disclaimerKeywords with Hindi.disclosureKeywords.
  cbv zeta.
  generalize (existsb (fun u =>
    num_le (Hindi.start u) 30 &&
    some_keyword Hindi.disclosureKeywords (toLowerCase (Hindi.transcript u))) us).
  generalize (existsb (fun u =>
    num_le (Hindi.start u) 60 &&
    some_keyword Hindi.idKeywords (toLowerCase (Hindi.transcript u))) us).
  intros identified disclosed.
  destruct (Z.leb_spec 12 (Hindi.analyzeUrgency toLowerCase us));
  destruct (Z.leb_spec 12 (Hindi.analyzeRebuttal toLowerCase us));
  destruct (num_gt (Hindi.sentiment_score s) double_0_3);
  destruct (num_lt (Hindi.sentiment_score s) (- double_0_3));
  destruct identified, disclosed;
  (match goal with
   | |- (?text = _) <-> _ =>
       let v := eval vm_compute in text in change text with v
   end);
  (split; [intro Hfb | intros (Hu & Hr & Hd & Hi & Hp & Hn)]);
  first [ discriminate Hfb | discriminate Hd | discriminate Hi
        | discriminate Hp | discriminate Hn | lia
        | repeat split; (lia || reflexivity) ].
Qed.

(** ** What the analysis reads of an utterance *)

Section Related.

Context {A : Type} (R : A -> A -> Prop).

Lemma existsb_related (f : A -> bool) (us vs : list A) :
  Forall2 R us vs -> (forall u v, R u v -> f u = f v) ->
  existsb f us = existsb f vs.
Proof.
  intros Hrel Hf. induction Hrel as [|u v us vs Huv _ IH]; [reflexivity|].
  cbn [existsb]. rewrite (Hf u v Huv), IH. reflexivity.
Qed.

Lemma fold_left_related {S : Type} (step : S -> A -> S) (us vs : list A) :
  Forall2 R us vs -> (forall acc u v, R u v -> step acc u = step acc v) ->
  forall acc, fold_left step us acc = fold_left step vs acc.
Proof.
  intros Hrel Hstep. induction Hrel as [|u v us vs Huv _ IH]; intro acc;
    [reflexivity|].
  cbn [fold_left]. rewrite (Hstep acc u v Huv). apply IH.
Qed.

Lemma forEach_related {S : Type} (f : S -> A -> Z -> S) (us vs : list A) :
  Forall2 R us vs -> (forall st u v i, R u v -> f st u i = f st v i) ->
  forall index st, forEach f us index st = forEach f vs index st.
Proof.
  intros Hrel Hf. induction Hrel as [|u v us vs Huv _ IH]; intros index st;
    [reflexivity|].
  cbn [forEach]. rewrite (Hf st u v index Huv). apply IH.
Qed.

Lemma hd_error_related {B : Type} (view : A -> B) (us vs : list A) :
  Forall2 R us vs -> (forall u v, R u v -> view u = view v) ->
  option_map view (hd_error us) = option_map view (hd_error vs).
Proof.
  intros Hrel Hview. destruct Hrel as [|u v us vs Huv _]; [reflexivity|].
  cbn. rewrite (Hview u v Huv). reflexivity.
Qed.

Lemma lastOf_related {B : Type} (view : A -> B) (us vs : list A) :
  Forall2 R us vs -> (forall u v, R u v -> view u = view v) ->
  option_map view (lastOf us) = option_map view (lastOf vs).
Proof.
  intros Hrel Hview. induction Hrel as [|u v us vs Huv Hrest IH]; [reflexivity|].
  destruct Hrest as [|u' v' us vs Huv' Hrest].
  - cbn. rewrite (Hview u v Huv). reflexivity.
  - exact IH.
Qed.

End Related.

Ltac same_view :=
  intros; cbv beta zeta;
  unfold Hindi.rebuttal_step, Hindi.observation_step;
  repeat match goal with
  | H : same_text_and_start _ _ |- _ => destruct H as [? ?]
  | H : same_text _ _ |- _ => unfold same_text in H
  end;
  repeat match goal with
  | H : _ = _ |- _ => rewrite ?H; clear H
  end;
  reflexivity.

Lemma hindi_analysis_reads_text_and_start toLowerCase us vs s topics intents :
  Forall2 same_text_and_start us vs ->
  Hindi.POST_analysis toLowerCase us s topics intents =
  Hindi.POST_analysis toLowerCase vs s topics intents.
Proof.
  intro Hrel.
  unfold Hindi.POST_analysis. rewrite !hindi_POST_scores_returns. cbn [bind].
  rewrite (hd_error_related same_text_and_start
             (fun u => (Hindi.transcript u, Hindi.start u)) us vs Hrel)
    by same_view.
  rewrite (lastOf_related same_text_and_start Hindi.transcript us vs Hrel)
    by same_view.
  assert (Hurgency : Hindi.analyzeUrgency toLowerCase us =
                     Hindi.analyzeUrgency toLowerCase vs).
  { unfold Hindi.analyzeUrgency.
    rewrite (fold_left_related same_text_and_start _ us vs Hrel)
      by same_view. reflexivity. }
  assert (Hrebuttal : Hindi.analyzeRebuttal toLowerCase us =
                      Hindi.analyzeRebuttal toLowerCase vs).
  { unfold Hindi.analyzeRebuttal, Hindi.rebuttal_counters.
    rewrite (forEach_related same_text_and_start _ us vs Hrel)
      by same_view. reflexivity. }
  assert (Hdisclaimer : Hindi.analyzeDisclaimer toLowerCase us =
                        Hindi.analyzeDisclaimer toLowerCase vs).
  { unfold Hindi.analyzeDisclaimer.
    rewrite (existsb_related same_text_and_start _ us vs Hrel)
      by same_view. reflexivity. }
  assert (Hdisposition : Hindi.analyzeDisposition toLowerCase us intents =
                         Hindi.analyzeDisposition toLowerCase vs intents).
  { unfold Hindi.analyzeDisposition.
    rewrite (existsb_related same_text_and_start
      (fun u => some_keyword Hindi.dispositionKeywords
                  (toLowerCase (Hindi.transcript u))) us vs Hrel)
      by same_view.
    rewrite (existsb_related same_text_and_start
      (fun u => some_keyword Hindi.dispositionKeywords
                  (toLowerCase (Hindi.transcript u)) &&
                (includes (toLowerCase (Hindi.transcript u)) "क्योंकि" ||
                 includes (toLowerCase (Hindi.transcript u)) "कारण" ||
                 includes (toLowerCase (Hindi.transcript u)) "वजह")) us vs Hrel)
      by same_view.
    reflexivity. }
  assert (Hidentification : Hindi.analyzeIdentification toLowerCase us =
                            Hindi.analyzeIdentification toLowerCase vs).
  { unfold Hindi.analyzeIdentification.
    rewrite (existsb_related same_text_and_start _ us vs Hrel)
      by same_view. reflexivity. }
  assert (Htape : Hindi.analyzeTapeDisclosure toLowerCase us =
                  Hindi.analyzeTapeDisclosure toLowerCase vs).
  { unfold Hindi.analyzeTapeDisclosure.
    rewrite (existsb_related same_text_and_start _ us vs Hrel)
      by same_view. reflexivity. }
  assert (Htone : Hindi.analyzeToneLanguage toLowerCase s us =
                  Hindi.analyzeToneLanguage toLowerCase s vs).
  { unfold Hindi.analyzeToneLanguage.
    rewrite (existsb_related same_text_and_start _ us vs Hrel)
      by same_view. reflexivity. }
  assert (Hobservation : Hindi.generateObservation toLowerCase us topics s =
                         Hindi.generateObservation toLowerCase vs topics s).
  { unfold Hindi.generateObservation, Hindi.objection_clause.
    rewrite !item_last.
    rewrite (forEach_related same_text_and_start _ us vs Hrel) by same_view.
    rewrite (existsb_related same_text_and_start
      (fun u => some_keyword Hindi.disclosureKeywords
                  (toLowerCase (Hindi.transcript u))) us vs Hrel) by same_view.
    rewrite (existsb_related same_text_and_start
      (fun u => some_keyword Hindi.idKeywords
                  (toLowerCase (Hindi.transcript u))) us vs Hrel) by same_view.
    pose proof (lastOf_related same_text_and_start Hindi.transcript us vs Hrel)
      as Hlast.
    destruct (lastOf us) as [lu|], (lastOf vs) as [lv|]; cbn in Hlast;
      try (specialize (Hlast ltac:(same_view)); discriminate Hlast).
    - rewrite (f_equal (fun o => match o with Some t => t | None => "" end)
                 (Hlast ltac:(same_view))).
      reflexivity.
    - reflexivity. }
  rewrite Hurgency, Hrebuttal, Hdisclaimer, Hdisposition, Hidentification,
    Htape, Htone, Hobservation.
  reflexivity.
Qed.

Lemma english_analysis_reads_text toLowerCase us vs s topics summary intents :
  Forall2 same_text us vs ->
  option_map English.start (hd_error us) =
    option_map English.start (hd_error vs) ->
  English.POST_analysis toLowerCase us s topics summary intents =
  English.POST_analysis toLowerCase vs s topics summary intents.
Proof.
  intros Hrel Hfirst.
  unfold English.POST_analysis. rewrite !english_POST_scores_returns.
  cbn [bind].
  assert (Hgreeting :
    option_map (fun u => (English.transcript u, English.start u)) (hd_error us) =
    option_map (fun u => (English.transcript u, English.start u)) (hd_error vs)).
  { destruct Hrel as [|u v us vs Huv _]; [reflexivity|].
    cbn in *. injection Hfirst as Hstart. unfold same_text in Huv.
    rewrite Huv, Hstart. reflexivity. }
  rewrite Hgreeting.
  rewrite (lastOf_related same_text English.transcript us vs Hrel)
    by same_view.
  assert (Hurgency : English.analyzeUrgency toLowerCase us =
                     English.analyzeUrgency toLowerCase vs).
  { unfold English.analyzeUrgency.
    rewrite (fold_left_related same_text _ us vs Hrel) by same_view.
    reflexivity. }
  assert (Hrebuttal : English.analyzeRebuttal toLowerCase us =
                      English.analyzeRebuttal toLowerCase vs).
  { unfold English.analyzeRebuttal.
    rewrite (fold_left_related same_text _ us vs Hrel) by same_view.
    reflexivity. }
  assert (Hdisclaimer : English.analyzeDisclaimer toLowerCase us =
                        English.analyzeDisclaimer toLowerCase vs).
  { unfold English.analyzeDisclaimer.
    rewrite (existsb_related same_text _ us vs Hrel) by same_view.
    reflexivity. }
  assert (Hidentification : English.analyzeIdentification toLowerCase us =
                            English.analyzeIdentification toLowerCase vs).
  { unfold English.analyzeIdentification.
    rewrite (existsb_related same_text _ us vs Hrel) by same_view.
    reflexivity. }
  assert (Htape : English.analyzeTapeDisclosure toLowerCase us =
                  English.analyzeTapeDisclosure toLowerCase vs).
  { unfold English.analyzeTapeDisclosure.
    rewrite (existsb_related same_text _ us vs Hrel) by same_view.
    reflexivity. }
  assert (Htone : English.analyzeToneLanguage toLowerCase s us =
                  English.analyzeToneLanguage toLowerCase s vs).
  { unfold English.analyzeToneLanguage.
    rewrite (existsb_related same_text _ us vs Hrel) by same_view.
    reflexivity. }
  rewrite Hurgency, Hrebuttal, Hdisclaimer, Hidentification, Htape, Htone.
  reflexivity.
Qed.

(** X15. The Hindi analysis reads nothing of an utterance but its text and
    its start time: two calls whose utterances agree on these get the same
    scores, feedback and observation, whatever the utterances' end times and
    per-utterance sentiments. *)
Theorem X15_hindi_analysis_reads_text_and_start
    (toLowerCase : string -> string) (us vs : list Hindi.Utterance)
    (s : Hindi.Sentiment) (topics : list Hindi.Topic)
    (intents : list Hindi.Intent) :
  Forall2 same_text_and_start us vs ->
  Hindi.POST_analysis toLowerCase us s topics intents =
  Hindi.POST_analysis toLowerCase vs s topics intents.
Proof. apply hindi_analysis_reads_text_and_start. Qed.

Lemma X15_hindi_analysis_view_witness :
  Hindi.POST_analysis asciiLowerCase
    [{| Hindi.transcript := "नमस्ते, यह कॉल रिकॉर्ड हो रहा है";
        Hindi.start := Finite 1; Hindi.end_ := Finite 4;
        Hindi.utterance_sentiment := "positive";
        Hindi.utterance_sentiment_score := Finite 0.75 |}]
    (hindi_sentiment 0.5) [] [] =
  Hindi.POST_analysis asciiLowerCase
    [{| Hindi.transcript := "नमस्ते, यह कॉल रिकॉर्ड हो रहा है";
        Hindi.start := Finite 1; Hindi.end_ := Finite 90;
        Hindi.utterance_sentiment := "negative";
        Hindi.utterance_sentiment_score := Finite (-0.75) |}]
    (hindi_sentiment 0.5) [] [].
Proof.
  apply (X15_hindi_analysis_reads_text_and_start asciiLowerCase).
  constructor; [split; reflexivity | constructor].
Defined.

(** X16. The English analysis reads the texts of the utterances and the
    start time of the first one only: no other timestamp has any effect on
    scores, feedback or observation, so none of its checks is time-windowed
    but the greeting. *)
Theorem X16_english_analysis_reads_text_and_first_start
    (toLowerCase : string -> string) (us vs : list English.Utterance)
    (s : English.Sentiment) (topics : list English.Topic) (summary : string)
    (intents : list English.Intent) :
  Forall2 same_text us vs ->
  option_map English.start (hd_error us) =
    option_map English.start (hd_error vs) ->
  English.POST_analysis toLowerCase us s topics summary intents =
  English.POST_analysis toLowerCase vs s topics summary intents.
Proof. apply english_analysis_reads_text. Qed.

Lemma X16_english_analysis_view_witness :
  English.POST_analysis asciiLowerCase
    [en "Hello" 2; en "This call is recorded" 10]
    (english_sentiment 0.5) [] "" [] =
  English.POST_analysis asciiLowerCase
    [en "Hello" 2; en "This call is recorded" 900]
    (english_sentiment 0.5) [] "" [].
Proof.
  apply (X16_english_analysis_reads_text_and_first_start asciiLowerCase).
  - repeat constructor.
  - reflexivity.
Defined.

(** ** The handlers' [POST] *)



(** What the [try] block comes to once the envelope is read. *)
Lemma hindi_analyze_reply_read toLowerCase data :
  HindiRoute.analyze_reply toLowerCase (Replied data) =
  match HindiRoute.alternative0 data with
  | Raises => Raises
  | Returns None => Returns (failure 500 "Transcription failed")
  | Returns (Some a) =>
      if is_empty (string_or (HindiRoute.alt_transcript a) "")
      then Returns (failure 500 "Transcription failed")
      else result <- hindi_analysis_of toLowerCase a ;;
           Returns (hindi_result result)
  end.
Proof.
  unfold HindiRoute.analyze_reply, HindiRoute.read.
  destruct (HindiRoute.alternative0 data) as [[a|]|]; cbn [bind];
    [|reflexivity|reflexivity].
  destruct (is_empty _); [reflexivity|].
  unfold hindi_analysis_of, hindi_sentiment_of.
  destruct (Hindi.POST_analysis _ _ _ _ _) as [[[scores fb] obs]|]; reflexivity.
Qed.

Lemma english_analyze_reply_read toLowerCase data :
  EnglishRoute.analyze_reply toLowerCase (Replied data) =
  match EnglishRoute.alternative0 data with
  | Raises => Raises
  | Returns None => Returns (failure 500 "Transcription failed")
  | Returns (Some a) =>
      if is_empty (string_or (EnglishRoute.alt_transcript a) "")
      then Returns (failure 500 "Transcription failed")
      else result <- english_analysis_of toLowerCase a ;;
           Returns (english_result result)
  end.
Proof.
  unfold EnglishRoute.analyze_reply, EnglishRoute.read.
  destruct (EnglishRoute.alternative0 data) as [[a|]|]; cbn [bind];
    [|reflexivity|reflexivity].
  destruct (is_empty _); [reflexivity|].
  unfold english_analysis_of.
  destruct (English.POST_analysis _ _ _ _ _ _) as [[[scores fb] obs]|];
    reflexivity.
Qed.

(** The analysis of a first alternative returns, and its scores respect the
    registry. *)
Lemma hindi_analysis_of_returns toLowerCase a :
  exists scores fb obs,
    hindi_analysis_of toLowerCase a = Returns (scores, fb, obs) /\
    Hindi.POST_scores toLowerCase (value_or (HindiRoute.alt_utterances a) [])
      (hindi_sentiment_of a) (value_or (HindiRoute.alt_intents a) [])
      = Returns scores /\
    fb = Hindi.generateOverallFeedback scores (hindi_sentiment_of a) /\
    obs = Hindi.generateObservation toLowerCase
            (value_or (HindiRoute.alt_utterances a) [])
            (value_or (HindiRoute.alt_topics a) []) (hindi_sentiment_of a) /\
    forallb (within_weight scores) Hindi.parameters = true.
Proof.
  unfold hindi_analysis_of, Hindi.POST_analysis.
  rewrite hindi_POST_scores_returns. cbn [bind].
  do 3 eexists. repeat split.
  pose proof (hindi_score_bounds toLowerCase
    (value_or (HindiRoute.alt_utterances a) []) (hindi_sentiment_of a)
    (value_or (HindiRoute.alt_intents a) [])) as Hb.
  apply ten_scores_within_weights; try reflexivity; try tauto;
    first [apply hindi_urgency_range | apply hindi_rebuttal_range | lia].
Qed.

Lemma english_analysis_of_returns toLowerCase a :
  exists scores fb obs,
    english_analysis_of toLowerCase a = Returns (scores, fb, obs) /\
    English.POST_scores toLowerCase
      (value_or (EnglishRoute.alt_utterances a) [])
      (value_or (EnglishRoute.alt_sentiment a) {| English.overall := NaN |})
      (value_or (EnglishRoute.alt_intents a) []) = Returns scores /\
    obs = English.generateObservation
            (value_or (EnglishRoute.alt_utterances a) [])
            (value_or (EnglishRoute.alt_topics a) [])
            (value_or (EnglishRoute.alt_sentiment a)
               {| English.overall := NaN |}) /\
    forallb (within_weight scores) English.parameters = true.
Proof.
  unfold english_analysis_of, English.POST_analysis.
  rewrite english_POST_scores_returns. cbn [bind].
  do 3 eexists. repeat split.
  pose proof (english_score_bounds toLowerCase
    (value_or (EnglishRoute.alt_utterances a) [])
    (value_or (EnglishRoute.alt_sentiment a) {| English.overall := NaN |})
    (value_or (EnglishRoute.alt_intents a) [])) as Hb.
  apply ten_scores_within_weights; try reflexivity; try tauto;
    first [apply english_urgency_range | apply english_rebuttal_range | lia].
Qed.

Ltac hindi_post toLowerCase file key provider :=
  unfold HindiRoute.POST;
  destruct file as [f|]; [|cbn];
  [ destruct (is_empty (string_or key "")) eqn:Hkey; [cbn|];
    [ | destruct (provider (string_or key "") f) as [|data] eqn:Hreply;
        [cbn [HindiRoute.analyze_reply]
        | rewrite hindi_analyze_reply_read;
          destruct (HindiRoute.alternative0 data) as [[a|]|] eqn:Halt;
          [ destruct (is_empty (string_or (HindiRoute.alt_transcript a) ""))
              eqn:Hempty;
            [ cbn
            | let scores := fresh "scores" in
              let fb := fresh "fb" in
              let obs := fresh "obs" in
              let Hret := fresh "Hret" in
              let Hsc := fresh "Hsc" in
              let Hfb := fresh "Hfb" in
              let Hobs := fresh "Hobs" in
              let Hin := fresh "Hin" in
              destruct (hindi_analysis_of_returns toLowerCase a)
                as (scores & fb & obs & Hret & Hsc & Hfb & Hobs & Hin);
              rewrite Hret; cbn ]
          | cbn | cbn ] ] ]
  | ].

Ltac english_post toLowerCase file key provider :=
  unfold EnglishRoute.POST;
  destruct file as [f|]; [|cbn];
  [ destruct (is_empty (string_or key "")) eqn:Hkey; [cbn|];
    [ | destruct (provider (string_or key "") f) as [|data] eqn:Hreply;
        [cbn [EnglishRoute.analyze_reply]
        | rewrite english_analyze_reply_read;
          destruct (EnglishRoute.alternative0 data) as [[a|]|] eqn:Halt;
          [ destruct (is_empty (string_or (EnglishRoute.alt_transcript a) ""))
              eqn:Hempty;
            [ cbn
            | let scores := fresh "scores" in
              let fb := fresh "fb" in
              let obs := fresh "obs" in
              let Hret := fresh "Hret" in
              let Hsc := fresh "Hsc" in
              let Hobs := fresh "Hobs" in
              let Hin := fresh "Hin" in
              destruct (english_analysis_of_returns toLowerCase a)
                as (scores & fb & obs & Hret & Hsc & Hobs & Hin);
              rewrite Hret; cbn ]
          | cbn | cbn ] ] ]
  | ].


(** X18. Every answer with status [200] carries a score object whose ten
    registry keys all have a value within the declared weight; this covers
    the analysis of a provider response and the canned answer that is sent
    when no API key is configured, in both handlers. *)
Theorem X18_POST_success_scores_within_weights (toLowerCase : string -> string)
    (file : option File) (key : option string)
    (hindi_provider : string -> File -> provider_reply HindiRoute.Data)
    (english_provider : string -> File -> provider_reply EnglishRoute.Data) :
  (status (HindiRoute.POST toLowerCase file key hindi_provider) = 200 ->
   exists scores fb obs echo,
     content (HindiRoute.POST toLowerCase file key hindi_provider) =
       ResultBody scores fb obs echo /\
     forallb (within_weight scores) Hindi.parameters = true) /\
  (status (EnglishRoute.POST toLowerCase file key english_provider) = 200 ->
   exists scores fb obs echo,
     content (EnglishRoute.POST toLowerCase file key english_provider) =
       ResultBody scores fb obs echo /\
     forallb (within_weight scores) English.parameters = true).
Proof.
  split.
  - hindi_post toLowerCase file key hindi_provider; try discriminate; intros _.
    + do 4 eexists. split; reflexivity.
    + unfold hindi_result. do 4 eexists. split; [reflexivity | exact Hin].
  - english_post toLowerCase file key english_provider; try discriminate;
      intros _.
    + do 4 eexists. split; reflexivity.
    + unfold english_result. do 4 eexists. split; [reflexivity | exact Hin].
Qed.

Lemma X18_POST_success_witness :
  (exists scores fb obs echo,
     content (HindiRoute.POST asciiLowerCase (Some sample_file) (Some "secret")
                (fun _ _ => Replied hindi_sample_data)) =
       ResultBody scores fb obs echo /\
     forallb (within_weight scores) Hindi.parameters = true) /\
  (exists scores fb obs echo,
     content (EnglishRoute.POST asciiLowerCase (Some sample_file)
                (Some "secret") (fun _ _ => Replied english_sample_data)) =
       ResultBody scores fb obs echo /\
     forallb (within_weight scores) English.parameters = true).
Proof.
  split.
  - apply (proj1 (X18_POST_success_scores_within_weights asciiLowerCase
      (Some sample_file) (Some "secret") (fun _ _ => Replied hindi_sample_data)
      (fun _ _ => Failed))).
    reflexivity.
  - apply (proj2 (X18_POST_success_scores_within_weights asciiLowerCase
      (Some sample_file) (Some "secret") (fun _ _ => Failed)
      (fun _ _ => Replied english_sample_data))).
    reflexivity.
Defined.



(** X21. When the provider's first alternative carries no sentiment score,
    the Hindi handler scores the call as if the score were [0]:
    [callEtiquette] is [5] and [fatalToneLanguage] is [0] or [10]. *)
Theorem X21_hindi_POST_without_sentiment (toLowerCase : string -> string)
    (f : File) (key : option string)
    (provider : string -> File -> provider_reply HindiRoute.Data)
    (data : HindiRoute.Data) (a : HindiRoute.Alternative) :
  is_empty (string_or key "") = false ->
  provider (string_or key "") f = Replied data ->
  HindiRoute.alternative0 data = Returns (Some a) ->
  is_empty (string_or (HindiRoute.alt_transcript a) "") = false ->
  HindiRoute.alt_sentiment_score a = None ->
  exists scores fb obs echo,
    HindiRoute.POST toLowerCase (Some f) key provider =
      {| status := 200; content := ResultBody scores fb obs echo |} /\
    get scores "callEtiquette" = Some 5 /\
    awarded scores "fatalToneLanguage" [0; 10].
Proof.
  intros Hkey Hreply Halt Hempty Hscore.
  unfold HindiRoute.POST. rewrite Hkey, Hreply, hindi_analyze_reply_read, Halt,
    Hempty.
  destruct (hindi_analysis_of_returns toLowerCase a)
    as (scores & fb & obs & Hret & Hsc & _ & _ & _).
  rewrite Hret. cbn [bind hindi_result].
  do 4 eexists. split; [reflexivity|].
  rewrite hindi_POST_scores_returns in Hsc. injection Hsc as <-.
  unfold hindi_sentiment_of. rewrite Hscore.
  split; [reflexivity|].
  eexists. split; [reflexivity|].
  unfold Hindi.analyzeToneLanguage. cbn [Hindi.sentiment_score number_or].
  destruct (existsb _ _); cbn; auto.
Qed.

Lemma X21_hindi_POST_without_sentiment_witness :
  exists scores fb obs echo,
    HindiRoute.POST asciiLowerCase (Some sample_file) (Some "secret")
      (fun _ _ => Replied hindi_sample_data) =
      {| status := 200; content := ResultBody scores fb obs echo |} /\
    get scores "callEtiquette" = Some 5 /\
    awarded scores "fatalToneLanguage" [0; 10].
Proof.
  eapply (X21_hindi_POST_without_sentiment asciiLowerCase sample_file
            (Some "secret") (fun _ _ => Replied hindi_sample_data)
            hindi_sample_data); reflexivity.
Defined.

(** X22. When the provider's first alternative carries no sentiment, the
    English handler awards [callEtiquette] its base [10] and its observation
    reports a negative sentiment: the observation is never the fallback
    text, and without topics it is [Overall sentiment was negative]. *)
Theorem X22_english_POST_without_sentiment (toLowerCase : string -> string)
    (f : File) (key : option string)
    (provider : string -> File -> provider_reply EnglishRoute.Data)
    (data : EnglishRoute.Data) (a : EnglishRoute.Alternative) :
  is_empty (string_or key "") = false ->
  provider (string_or key "") f = Replied data ->
  EnglishRoute.alternative0 data = Returns (Some a) ->
  is_empty (string_or (EnglishRoute.alt_transcript a) "") = false ->
  EnglishRoute.alt_sentiment a = None ->
  exists scores fb obs echo,
    EnglishRoute.POST toLowerCase (Some f) key provider =
      {| status := 200; content := ResultBody scores fb obs echo |} /\
    get scores "callEtiquette" = Some 10 /\
    obs <> fallback_observation /\
    (value_or (EnglishRoute.alt_topics a) [] = [] ->
     obs = "Overall sentiment was negative").
Proof.
  intros Hkey Hreply Halt Hempty Hsentiment.
  unfold EnglishRoute.POST.
  rewrite Hkey, Hreply, english_analyze_reply_read, Halt, Hempty.
  destruct (english_analysis_of_returns toLowerCase a)
    as (scores & fb & obs & Hret & Hsc & Hobs & _).
  rewrite Hret. cbn [bind english_result].
  do 4 eexists. split; [reflexivity|].
  rewrite english_POST_scores_returns in Hsc. injection Hsc as <-.
  rewrite Hsentiment in Hobs. cbn [value_or] in Hobs.
  rewrite Hsentiment. subst obs.
  split; [reflexivity|].
  unfold English.generateObservation.
  destruct (value_or (EnglishRoute.alt_topics a) []) as [|t rest].
  - split; [cbn; discriminate | reflexivity].
  - rewrite length_gtb_cons. split; [cbn; discriminate | discriminate].
Qed.

Lemma X22_english_POST_without_sentiment_witness :
  exists scores fb obs echo,
    EnglishRoute.POST asciiLowerCase (Some sample_file) (Some "secret")
      (fun _ _ => Replied english_sample_data) =
      {| status := 200; content := ResultBody scores fb obs echo |} /\
    get scores "callEtiquette" = Some 10 /\
    obs <> fallback_observation /\
    (value_or
       (EnglishRoute.alt_topics
          {| EnglishRoute.alt_transcript := Some "Hello thanks";
             EnglishRoute.alt_utterances := Some [en "Hello" 1; en "thanks" 20];
             EnglishRoute.alt_sentiment := None;
             EnglishRoute.alt_topics := None;
             EnglishRoute.alt_summarize := None;
             EnglishRoute.alt_intents := None |}) [] = [] ->
     obs = "Overall sentiment was negative").
Proof.
  eapply (X22_english_POST_without_sentiment asciiLowerCase sample_file
            (Some "secret") (fun _ _ => Replied english_sample_data)
            english_sample_data); reflexivity.
Defined.

(** ** Time windows of the Hindi handler *)

Lemma existsb_guard_filter {A : Type} (guard test : A -> bool) (xs : list A) :
  existsb (fun x => guard x && test x) xs =
  existsb (fun x => guard x && test x) (filter guard xs).
Proof.
  induction xs as [|x rest IH]; [reflexivity|].
  cbn [existsb filter]. destruct (guard x) eqn:Hguard.
  - cbn [existsb]. rewrite Hguard, IH. reflexivity.
  - cbn [andb orb]. exact IH.
Qed.

(** X23. The three windowed checks of the Hindi handler ignore every
    utterance that starts after their window: the disclaimer and tape
    disclosure scores are those of the utterances starting within [30]
    seconds, the identification score that of the utterances starting within
    [60] seconds. *)
Theorem X23_hindi_late_utterances_ignored (toLowerCase : string -> string)
    (us : list Hindi.Utterance) :
  Hindi.analyzeDisclaimer toLowerCase us =
    Hindi.analyzeDisclaimer toLowerCase
      (filter (fun u => num_le (Hindi.start u) 30) us) /\
  Hindi.analyzeTapeDisclosure toLowerCase us =
    Hindi.analyzeTapeDisclosure toLowerCase
      (filter (fun u => num_le (Hindi.start u) 30) us) /\
  Hindi.analyzeIdentification toLowerCase us =
    Hindi.analyzeIdentification toLowerCase
      (filter (fun u => num_le (Hindi.start u) 60) us).
Proof.
  unfold Hindi.analyzeDisclaimer, Hindi.analyzeTapeDisclosure,
    Hindi.analyzeIdentification.
  repeat split.
  - rewrite (existsb_guard_filter (fun u => num_le (Hindi.start u) 30)
      (fun u => some_keyword Hindi.disclaimerKeywords
                  (toLowerCase (Hindi.transcript u))) us).
    reflexivity.
  - rewrite (existsb_guard_filter (fun u => num_le (Hindi.start u) 30)
      (fun u => some_keyword Hindi.disclosureKeywords
                  (toLowerCase (Hindi.transcript u))) us).
    reflexivity.
  - rewrite (existsb_guard_filter (fun u => num_le (Hindi.start u) 60)
      (fun u => some_keyword Hindi.idKeywords
                  (toLowerCase (Hindi.transcript u))) us).
    reflexivity.
Qed.
